(** * uri_test: an HTTP load-testing module

    Shallow embedding of [library/uri_test.py]: the request executor
    [run_test] and the load driver [main], with the properties of the
    aggregate report they produce.

    The program talks to three things it does not define: the wall clock
    ([time.time]), the network ([open_url]) and a [multiprocessing.Pool].
    They are modelled as a [world] that the definitions read:
    - each process has a clock, a function from the number of readings
      taken so far to the value read;
    - the k-th task handed to the pool runs [run_test] in a worker process
      with its own clock and its own answer from the network;
    - a task that raises stores the exception in its result handle, and
      [get] raises it again in the driver.
    Python floats are kept behind the interface [PyFloat]; the instance
    over [Q] at the end of the definitions runs the model on inputs whose
    float arithmetic is exact. *)

From Stdlib Require Import ZArith List String Bool Lia Permutation QArith Qround.
Import ListNotations.

Local Open Scope Z_scope.

(** ** Floating-point interface *)

(** The operations [main] and [run_test] use on Python floats. *)
Class PyFloat (F : Type) : Type := {
  of_Z : Z -> F;                 (* float(n), and int operands of / *)
  fsub : F -> F -> F;            (* x - y *)
  fdiv : F -> F -> F;            (* x / y for a divisor that is not zero *)
  round : F -> Z -> F;           (* round(x, ndigits) *)
  is_zero : F -> bool;           (* x == 0.0 *)
  flt : F -> F -> bool           (* x < y *)
}.

(** The only facts about floats the proofs need: a value above zero is
    not zero, and [float(n)] is zero exactly for [n = 0].  Both hold of
    IEEE doubles for every [n] that [float] accepts. *)
Class PyFloatLaws (F : Type) `{PyFloat F} : Prop := {
  flt_zero_nonzero : forall x, flt (of_Z 0) x = true -> is_zero x = false;
  is_zero_of_Z : forall n, is_zero (of_Z n) = (n =? 0)
}.

(** ** Data model *)

(** Exceptions of the network layer, raised by [open_url] or by reading
    the body. *)
Inductive net_error : Type :=
| URLError (reason : string)
| HTTPError (code : Z)
| SocketTimeout.

(** The Python exceptions that can leave [run_test] or [main]. *)
Inductive exn : Type :=
| AttributeError (attr : string)
| ZeroDivisionError
| ValueError
| Transport (e : net_error).

(** The response object returned by [open_url]: [res.code] and what
    [res.read()] gives. *)
Record http_response : Type := {
  code : Z;
  read : net_error + list Byte.byte
}.

Definition headers : Type := list (string * string).

(** [URIResult = namedtuple('URIResult', ['status', 'time',
    'content_length', 'total_length'])] *)
Record URIResult (F : Type) : Type := mkURIResult {
  status : Z;
  time : F;
  content_length : Z;
  total_length : Z
}.
Arguments mkURIResult {F}.
Arguments status {F}.
Arguments time {F}.
Arguments content_length {F}.
Arguments total_length {F}.

(** [module.params] after argument parsing. *)
Record config : Type := {
  uri : string;
  request_count : Z;
  workers : Z;
  keepalive : bool;
  variable_length : bool
}.

(** The dictionary handed to [module.exit_json]. *)
Record report (F : Type) : Type := mkReport {
  total_time : F;
  total_bytes_transferred : Z;
  total_content_bytes_transferred : Z;
  requests_per_second : F;
  kbytes_per_second : F;
  failed_requests : Z
}.
Arguments mkReport {F}.
Arguments total_time {F}.
Arguments total_bytes_transferred {F}.
Arguments total_content_bytes_transferred {F}.
Arguments requests_per_second {F}.
Arguments kbytes_per_second {F}.
Arguments failed_requests {F}.

(** ** The world *)

(** What one worker process sees while it runs one task. *)
Record worker_env (F : Type) : Type := {
  w_clock : nat -> F;
  w_open_url : string -> headers -> net_error + http_response
}.
Arguments w_clock {F}.
Arguments w_open_url {F}.

Record world (F : Type) : Type := {
  main_clock : nat -> F;
  worker : nat -> worker_env F
}.
Arguments main_clock {F}.
Arguments worker {F}.

(** ** The request executor *)

(** What a worker process does, in order. *)
Inductive event (F : Type) : Type :=
| EvTime (t : F)
| EvOpenUrl (u : string) (h : headers)
| EvInfo
| EvRead (n : nat).
Arguments EvTime {F}.
Arguments EvOpenUrl {F}.
Arguments EvInfo {F}.
Arguments EvRead {F}.

Record proc (F : Type) : Type := mkProc {
  ticks : nat;
  trace : list (event F)
}.
Arguments mkProc {F}.
Arguments ticks {F}.
Arguments trace {F}.

Definition proc0 {F : Type} : proc F := mkProc 0%nat [].

Module Worker.

Section Ops.
Context {F : Type}.
Variable env : worker_env F.

(** Computations of a worker: state passing over [proc], an exception
    ends the computation. *)
Definition IO (A : Type) : Type := proc F -> (exn + A) * proc F.

Definition ret {A : Type} (a : A) : IO A := fun p => (inr a, p).

Definition bind {A B : Type} (m : IO A) (k : A -> IO B) : IO B :=
  fun p => match m p with
           | (inl e, p') => (inl e, p')
           | (inr a, p') => k a p'
           end.

Definition raise {A : Type} (e : exn) : IO A := fun p => (inl e, p).

Definition emit (ev : event F) : IO unit :=
  fun p => (inr tt, mkProc (ticks p) (trace p ++ [ev])).

Definition time_time : IO F :=
  fun p => let t := w_clock env (ticks p) in
           (inr t, mkProc (S (ticks p)) (trace p ++ [EvTime t])).

Definition open_url (u : string) (h : headers) : IO http_response :=
  bind (emit (EvOpenUrl u h)) (fun _ =>
  match w_open_url env u h with
  | inl e => raise (Transport e)
  | inr res => ret res
  end).

Definition res_info (res : http_response) : IO unit := emit EvInfo.

Definition res_read (res : http_response) : IO (list Byte.byte) :=
  match read res with
  | inl e => raise (Transport e)
  | inr body => bind (emit (EvRead (List.length body))) (fun _ => ret body)
  end.

End Ops.

Arguments IO F A : clear implicits.

End Worker.

Declare Scope io_scope.
Delimit Scope io_scope with io.
Notation "x <- m ;; k" := (Worker.bind m (fun x => k))
  (at level 61, m at next level, right associativity) : io_scope.

Section Executor.
Context {F : Type} `{PyFloat F}.

(** [run_test(uri, keepalive, variable_length)] in the worker [env]. *)
Definition run_test (env : worker_env F) (uri : string)
    (keepalive variable_length : bool) : Worker.IO F (URIResult F) :=
  (let headers : headers := [] in
   let headers :=
     if keepalive then ("Connection", "keep-alive")%string :: headers
     else headers in
   start <- Worker.time_time env ;;
   res <- Worker.open_url env uri headers ;;
   end_ <- Worker.time_time env ;;
   info <- Worker.res_info res ;;
   body <- Worker.res_read res ;;
   let content_length := Z.of_nat (List.length body) in
   let total_length := content_length in
   Worker.ret
     (mkURIResult (code res) (fsub end_ start) content_length total_length))%io.

End Executor.

(** ** The load driver *)

(** How a run of [main] ends: inside the call
    [module.fail_json] with the message [msg], or inside [module.exit_json]
    (neither call returns to [main]), or with an exception that nothing
    catches. *)
Inductive stop (F : Type) : Type :=
| FailJson (msg : string)
| ExitJson (r : report F)
| Raise (e : exn).
Arguments FailJson {F}.
Arguments ExitJson {F}.
Arguments Raise {F}.

(** State of the driver process: clock readings taken, the size of the
    pool once it exists, and how many [run_test] tasks the pool was
    given (each is one call of the executor). *)
Record driver : Type := mkDriver {
  d_ticks : nat;
  pool_processes : option Z;
  calls : nat
}.

Definition driver0 : driver := mkDriver 0%nat None 0%nat.

(** A result handle of [apply_async]: the task's value or its exception. *)
Definition AsyncResult (A : Type) : Type := (exn + A)%type.

Module Driver.

Section Ops.
Context {F : Type} `{PyFloat F}.
Variable w : world F.

Definition M (A : Type) : Type := driver -> (stop F + A) * driver.

Definition ret {A : Type} (a : A) : M A := fun d => (inr a, d).

Definition bind {A B : Type} (m : M A) (k : A -> M B) : M B :=
  fun d => match m d with
           | (inl s, d') => (inl s, d')
           | (inr a, d') => k a d'
           end.

Definition raise {A : Type} (e : exn) : M A := fun d => (inl (Raise e), d).

Definition fail_json {A : Type} (msg : string) : M A :=
  fun d => (inl (FailJson msg), d).

Definition exit_json {A : Type} (r : report F) : M A :=
  fun d => (inl (ExitJson r), d).

Definition time_time : M F :=
  fun d => (inr (main_clock w (d_ticks d)),
            mkDriver (S (d_ticks d)) (pool_processes d) (calls d)).

(** [Pool(processes=n)]; the library raises [ValueError] for [n < 1]. *)
Definition Pool (processes : Z) : M unit :=
  fun d => if processes <? 1 then (inl (Raise ValueError), d)
           else (inr tt, mkDriver (d_ticks d) (Some processes) (calls d)).

(** [pool.apply_async(task, args)]: the task runs in a worker process, in
    the environment the world gives to the next task; the handle keeps
    what it returned or raised. *)
Definition apply_async {A : Type} (task : worker_env F -> Worker.IO F A)
    : M (AsyncResult A) :=
  fun d => (inr (fst (task (worker w (calls d)) proc0)),
            mkDriver (d_ticks d) (pool_processes d) (S (calls d))).

Definition pool_close : M unit := ret tt.
Definition pool_join : M unit := ret tt.

(** [async_result.get()] *)
Definition get {A : Type} (h : AsyncResult A) : M A :=
  match h with
  | inl e => raise e
  | inr a => ret a
  end.

(** [x / y] on floats: Python raises on a zero divisor. *)
Definition py_div (x y : F) : M F :=
  if is_zero y then raise ZeroDivisionError else ret (fdiv x y).

End Ops.

Arguments M F A : clear implicits.

End Driver.

Declare Scope drv_scope.
Delimit Scope drv_scope with drv.
Notation "x <- m ;; k" := (Driver.bind m (fun x => k))
  (at level 61, m at next level, right associativity) : drv_scope.
Notation "m ;; k" := (Driver.bind m (fun _ => k))
  (at level 61, right associativity) : drv_scope.

(** [range(lo, hi)] *)
Definition range (lo hi : Z) : list Z :=
  map (fun k => lo + Z.of_nat k) (seq 0 (Z.to_nat (hi - lo))).

Section LoadDriver.
Context {F : Type} `{PyFloat F}.
Variable w : world F.

(** [[pool.apply_async(run_test, (uri, keepalive, variable_length))
      for i in range(0, request_count)]] *)
Fixpoint submit_all (uri : string) (keepalive variable_length : bool)
    (indices : list Z) : Driver.M F (list (AsyncResult (URIResult F))) :=
  match indices with
  | [] => Driver.ret []
  | i :: rest =>
      (h <- Driver.apply_async w
              (fun env => run_test env uri keepalive variable_length) ;;
       hs <- submit_all uri keepalive variable_length rest ;;
       Driver.ret (h :: hs))%drv
  end.

(** The counters of the result loop: [total_bytes], [total_content_bytes],
    [total_errors]. *)
Record totals : Type := mkTotals {
  total_bytes : Z;
  total_content_bytes : Z;
  total_errors : Z
}.

(** One turn of [for async_result in async_results], after [get]. *)
Definition add_result (acc : totals) (res : URIResult F) : totals :=
  let total_bytes := total_bytes acc + total_length res in
  let total_content_bytes := total_content_bytes acc + content_length res in
  let total_errors :=
    if (status res <? 200) || (status res >=? 400)
    then total_errors acc + 1 else total_errors acc in
  mkTotals total_bytes total_content_bytes total_errors.

Fixpoint main_loop (async_results : list (AsyncResult (URIResult F)))
    (acc : totals) : Driver.M F totals :=
  match async_results with
  | [] => Driver.ret acc
  | async_result :: rest =>
      (res <- Driver.get async_result ;;
       main_loop rest (add_result acc res))%drv
  end.

(** [main()], from the parsed parameters on. *)
Definition main (params : config) : Driver.M F Empty_set :=
  (let uri := uri params in
   let request_count := request_count params in
   let workers := workers params in
   let keepalive := keepalive params in
   let variable_length := variable_length params in
   (if workers <? 1
    then Driver.fail_json "workers must be greater than 0"
    else Driver.ret tt) ;;
   (if request_count <? 1
    then Driver.raise (AttributeError "fail")
    else Driver.ret tt) ;;
   let workers := if request_count <? workers then request_count else workers in
   Driver.Pool workers ;;
   start <- Driver.time_time w ;;
   async_results <-
     submit_all uri keepalive variable_length (range 0 request_count) ;;
   Driver.pool_close ;;
   Driver.pool_join ;;
   end_ <- Driver.time_time w ;;
   let total_time := round (fsub end_ start) 3 in
   acc <- main_loop async_results (mkTotals 0 0 0) ;;
   rps <- Driver.py_div (of_Z request_count) total_time ;;
   kb <- Driver.py_div (of_Z (total_bytes acc)) total_time ;;
   kbps <- Driver.py_div kb (of_Z (2 ^ 10)) ;;
   Driver.exit_json
     (mkReport total_time (total_bytes acc) (total_content_bytes acc)
        (round rps 2) (round kbps 2) (total_errors acc)))%drv.

(** A whole run, from a fresh driver process. *)
Definition run (params : config) : stop F * driver :=
  match main params driver0 with
  | (inl s, d) => (s, d)
  | (inr never, _) => match never with end
  end.

End LoadDriver.

(** The headers [run_test] sends. *)
Definition headers_of (keepalive : bool) : headers :=
  if keepalive then [("Connection", "keep-alive")%string] else [].

(** ** What a run collects *)

Section Collected.
Context {F : Type} `{PyFloat F}.
Variable w : world F.

(** The handle of the k-th task of a run with parameters [params]. *)
Definition task_result (params : config) (k : nat)
    : AsyncResult (URIResult F) :=
  fst (run_test (worker w k) (uri params) (keepalive params)
         (variable_length params) proc0).

(** The list [async_results] of [main]. *)
Definition async_results (params : config)
    : list (AsyncResult (URIResult F)) :=
  map (task_result params) (seq 0 (Z.to_nat (request_count params))).

(** [round(end - start, 3)] of [main]. *)
Definition run_total_time : F :=
  round (fsub (main_clock w 1%nat) (main_clock w 0%nat)) 3.

(** The report of a run whose loop ended with the counters [acc]. *)
Definition report_of (params : config) (acc : totals) : report F :=
  mkReport run_total_time (total_bytes acc) (total_content_bytes acc)
    (round (fdiv (of_Z (request_count params)) run_total_time) 2)
    (round (fdiv (fdiv (of_Z (total_bytes acc)) run_total_time)
              (of_Z 1024)) 2)
    (total_errors acc).

End Collected.

Definition Zsum (l : list Z) : Z := fold_right Z.add 0 l.

(** A status outside the half-open interval [200, 400). *)
Definition outside_200_400 (s : Z) : bool :=
  negb ((200 <=? s) && (s <? 400)).

Definition count_failed {F : Type} (rs : list (URIResult F)) : Z :=
  Z.of_nat (List.length (filter (fun r => outside_200_400 (status r)) rs)).

(** Whether a run ended without a report. *)
Definition is_error {F : Type} (s : stop F) : bool :=
  match s with
  | ExitJson _ => false
  | _ => true
  end.

(** Whether a run was refused for its parameters. *)
Definition config_error {F : Type} (s : stop F) : bool :=
  match s with
  | FailJson _ => true
  | Raise (AttributeError _) => true
  | Raise ValueError => true
  | _ => false
  end.

(** Whether, in a worker's trace, the clock is read after the body. *)
Fixpoint time_after_read {F : Type} (tr : list (event F)) : bool :=
  match tr with
  | [] => false
  | EvRead _ :: rest =>
      existsb (fun ev => match ev with EvTime _ => true | _ => false end) rest
  | _ :: rest => time_after_read rest
  end.

(** The calls of [open_url] in a worker's trace, with their arguments. *)
Fixpoint open_url_events {F : Type} (tr : list (event F))
    : list (string * headers) :=
  match tr with
  | [] => []
  | EvOpenUrl u h :: rest => (u, h) :: open_url_events rest
  | _ :: rest => open_url_events rest
  end.

(** Two handles that the result loop cannot tell apart: the same
    exception, or results that differ at most in [time]. *)
Definition same_counts {F : Type} (h h' : AsyncResult (URIResult F)) : Prop :=
  match h, h' with
  | inl e, inl e' => e = e'
  | inr x, inr x' =>
      status x = status x' /\
      content_length x = content_length x' /\
      total_length x = total_length x'
  | _, _ => False
  end.

(** ** Exact arithmetic as floats *)

Module Exact.

(** [round(x, ndigits)] on a rational.  A tie goes to the even
    neighbour; none of the runs below has one. *)
Definition round_half_even (q : Q) : Z :=
  let f := Qfloor q in
  match Qcompare (q - inject_Z f) (1 # 2) with
  | Lt => f
  | Gt => f + 1
  | Eq => if Z.even f then f else f + 1
  end.

Definition Qround_digits (x : Q) (ndigits : Z) : Q :=
  let scale := inject_Z (10 ^ ndigits) in
  Qred (inject_Z (round_half_even (x * scale)) / scale).

#[export] Instance Q_float : PyFloat Q := {
  of_Z := inject_Z;
  fsub := fun x y => Qred (x - y);
  fdiv := fun x y => Qred (x / y);
  round := Qround_digits;
  is_zero := fun x => Qeq_bool x 0;
  flt := fun x y => negb (Qle_bool y x)
}.

(** A body of [n] bytes. *)
Definition body_of (n : nat) : list Byte.byte := repeat Byte.x61 n.

(** A worker that reads the clock at [t0] and [t1] and whose request is
    answered by [answer]. *)
Definition worker_of (t0 t1 : Q) (answer : net_error + http_response)
    : worker_env Q :=
  {| w_clock := fun k => match k with O => t0 | _ => t1 end;
     w_open_url := fun _ _ => answer |}.

Definition answered (c : Z) (n : nat) : net_error + http_response :=
  inr {| code := c; read := inr (body_of n) |}.

(** A world whose driver reads the clock at [t0] and [t1] and whose k-th
    task gets the k-th answer of [answers] (the last one from then on). *)
Definition world_of (t0 t1 : Q) (answers : list (net_error + http_response))
    : world Q :=
  {| main_clock := fun k => match k with O => t0 | _ => t1 end;
     worker := fun k =>
       worker_of t0 t1 (nth k answers (last answers (inl SocketTimeout))) |}.

Definition params_of (n wk : Z) (vl : bool) : config :=
  {| uri := "http://example.test/ok"; request_count := n; workers := wk;
     keepalive := false; variable_length := vl |}.

(** Every request answered 200 with 100 bytes, two seconds overall. *)
Definition steady : world Q := world_of 100 102 [answered 200 100].

(** The second request times out. *)
Definition flaky : world Q :=
  world_of 100 102 [answered 200 100; inl SocketTimeout; answered 200 5].

(** The driver reads the same time before and after the batch. *)
Definition instant : world Q := world_of 100 100 [answered 200 100].

(** Statuses on both sides of 200 and of 400. *)
Definition mixed : world Q :=
  world_of 100 (1001234 # 10000)
    [answered 200 100; answered 503 7; answered 399 1; answered 400 2;
     answered 199 3].

End Exact.

(** * ab: the Apache Bench wrapper

    Shallow embedding of [library/ab.py].  Its [main] takes the same
    parameters as [uri_test], builds the command line of [ab], runs it and
    reads the HTML table [ab -w] prints.

    The module does not define the library that finds and runs the binary
    nor the HTML parser; they are a [world] here.  Of the parsed document
    the code only asks, for each [tr], the list [tr.find_all('th')] (whose
    head is [tr.th]) and the list [tr.find_all('td')] (whose head is
    [tr.td]), and of each such tag its [attrs] and [contents]: a row is
    those two lists.  Strings are taken as their UTF-8 bytes, which is
    faithful for joining, for testing the last character against a colon
    and for dropping it.  The builtins [unicode.lower] and [int] are
    parameters. *)

From Stdlib Require Import Ascii DecimalString DecimalZ.

Module Ab.

(** The exceptions the body of [main] can raise. *)
Inductive exn : Type :=
| NameError (name : string)
| AttributeError (attr : string)
| TypeError
| IndexError
| ValueError.

(** A child of a tag: a string, or a nested tag. *)
Inductive node : Type :=
| Text (s : string)
| Elem (name : string).

Record tag : Type := {
  attrs : list (string * string);
  contents : list node
}.

Record tr : Type := {
  find_all_th : list tag;
  find_all_td : list tag
}.

(** ** Dictionaries *)

(** A Python dict with string keys, in insertion order. *)
Definition dict (V : Type) : Type := list (string * V).

Fixpoint dict_get {V : Type} (k : string) (d : dict V) : option V :=
  match d with
  | [] => None
  | (k', v) :: rest => if String.eqb k k' then Some v else dict_get k rest
  end.

(** [d[k] = v] *)
Fixpoint dict_set {V : Type} (k : string) (v : V) (d : dict V) : dict V :=
  match d with
  | [] => [(k, v)]
  | (k', v') :: rest =>
      if String.eqb k k' then (k, v) :: rest
      else (k', v') :: dict_set k v rest
  end.

(** A value of the result: a string, or the nested dict of connection
    times. *)
Inductive value : Type :=
| Str (s : string)
| Times (d : dict Z).

(** ** String operations *)

(** [str(n)] of an int. *)
Definition str (n : Z) : string := NilZero.string_of_int (Z.to_int n).

Fixpoint last_char (s : string) : option ascii :=
  match s with
  | EmptyString => None
  | String c EmptyString => Some c
  | String _ rest => last_char rest
  end.

(** [s[:-1]] *)
Fixpoint drop_last (s : string) : string :=
  match s with
  | EmptyString => EmptyString
  | String _ EmptyString => EmptyString
  | String c rest => String c (drop_last rest)
  end.

Fixpoint all_text (c : list node) : option (list string) :=
  match c with
  | [] => Some []
  | Text s :: rest =>
      match all_text rest with
      | Some l => Some (s :: l)
      | None => None
      end
  | Elem _ :: _ => None
  end.

(** [u' '.join(c)]: a [TypeError] when an item is not a string. *)
Definition join_contents (c : list node) : exn + string :=
  match all_text c with
  | Some l => inr (String.concat " "%string l)
  | None => inl TypeError
  end.

(** [if label[-1] == ':': label = label[:-1]] *)
Definition strip_colon (label : string) : exn + string :=
  match last_char label with
  | None => inl IndexError
  | Some c => if Ascii.eqb c ":"%char then inr (drop_last label) else inr label
  end.

Definition td_labels : list string := ["Min."; "Avg."; "Max"]%string.

Definition bind {A B : Type} (m : exn + A) (k : A -> exn + B) : exn + B :=
  match m with
  | inl e => inl e
  | inr a => k a
  end.

(** [o], or the exception [e] when there is none. *)
Definition or_raise {A : Type} (o : option A) (e : exn) : exn + A :=
  match o with
  | Some a => inr a
  | None => inl e
  end.

End Ab.

Declare Scope ab_scope.
Delimit Scope ab_scope with ab.
Notation "x <- m ;; k" := (Ab.bind m (fun x => k))
  (at level 61, m at next level, right associativity) : ab_scope.

Module AbMain.
Import Ab.

(** What [main] finds around it. *)
Record world : Type := {
  get_bin_path : option string;      (* module.get_bin_path('ab', ...) *)
  run_command : list string -> Z * string * string;
  HAS_BEAUTIFUL_SOUP : bool;         (* whether [bs4] could be imported *)
  find_all_tr : string -> list tr    (* BeautifulSoup(s, 'lxml').find_all('tr') *)
}.

(** How a run of [main] ends: inside [get_bin_path] which found no binary,
    inside [module.fail_json] or [module.exit_json], or with an
    exception. *)
Inductive stop : Type :=
| FailBinPath
| FailJson (rc : Z) (stdout stderr : string)
| ExitJson (result : dict value)
| Raise (e : exn).

Section Parse.
Variable lower : string -> string.      (* unicode.lower *)
Variable int : string -> option Z.      (* int(s); [None] is ValueError *)

(** [for idx, item in enumerate(tr.find_all('td'))], from [idx] on. *)
Fixpoint for_td (th_label : string) (idx : nat) (items : list tag)
    (result : dict value) : exn + dict value :=
  match items with
  | [] => inr result
  | item :: rest =>
      (td_label <- or_raise (nth_error td_labels idx) IndexError ;;
       label <- strip_colon (lower (td_label ++ " " ++ th_label)%string) ;;
       text <- join_contents (contents item) ;;
       n <- or_raise (int text) ValueError ;;
       match dict_get "connection times"%string result with
       | Some (Times d) =>
           for_td th_label (S idx) rest
             (dict_set "connection times"%string (Times (dict_set label n d))
                result)
       | _ => inl TypeError
       end)%ab
  end.

(** The body of [for tr in soup.find_all('tr')]. *)
Definition for_tr (result : dict value) (row : tr) : exn + dict value :=
  if (1 <? List.length (find_all_th row))%nat then inr result
  else
    match hd_error (find_all_th row) with
    | None => inr result
    | Some th =>
        match dict_get "colspan"%string (attrs th) with
        | Some cs =>
            (colspan <- or_raise (int cs) ValueError ;;
             if colspan =? 4 then inr result
             else
               text <- join_contents (contents th) ;;
               label <- strip_colon (lower text) ;;
               td <- or_raise (hd_error (find_all_td row))
                       (AttributeError "contents"%string) ;;
               v <- join_contents (contents td) ;;
               inr (dict_set label (Str v) result))%ab
        | None =>
            (th_label <- join_contents (contents th) ;;
             for_td th_label 0 (find_all_td row) result)%ab
        end
    end.

Fixpoint for_all_tr (rows : list tr) (result : dict value)
    : exn + dict value :=
  match rows with
  | [] => inr result
  | row :: rest => (result' <- for_tr result row ;; for_all_tr rest result')%ab
  end.

(** The argument list of the command. *)
Definition build_args (ab_path : string) (params : config) : list string :=
  let args := [ab_path; "-n"; str (request_count params); "-c";
               str (workers params); "-w"]%string in
  let args := if keepalive params then args ++ ["-k"%string] else args in
  let args := if variable_length params then args ++ ["-l"%string] else args in
  args ++ [uri params].

(** [main()]: how it ends, and the commands it ran. *)
Definition main (w : world) (params : config) : stop * list (list string) :=
  match get_bin_path w with
  | None => (FailBinPath, [])
  | Some ab_path =>
      let args := build_args ab_path params in
      let '(rc, stdout, stderr) := run_command w args in
      if negb (rc =? 0) then (FailJson rc stdout stderr, [args])
      else
        let result : dict value := [("connection times"%string, Times [])] in
        if HAS_BEAUTIFUL_SOUP w then
          match for_all_tr (find_all_tr w stdout) result with
          | inl e => (Raise e, [args])
          | inr result => (ExitJson result, [args])
          end
        else (Raise (NameError "BeautifulSoup"%string), [args])
  end.

End Parse.

(** ** Builtins and a document to run the model on *)

Definition lower_ascii (c : ascii) : ascii :=
  let n := nat_of_ascii c in
  if ((65 <=? n) && (n <=? 90))%nat then ascii_of_nat (n + 32) else c.

(** [lower] on ASCII strings. *)
Fixpoint ascii_lower (s : string) : string :=
  match s with
  | EmptyString => EmptyString
  | String c rest => String (lower_ascii c) (ascii_lower rest)
  end.

(** [int] on strings of decimal digits with an optional minus sign. *)
Definition decimal_int (s : string) : option Z :=
  match NilEmpty.int_of_string s with
  | Some d => Some (Z.of_int d)
  | None => None
  end.

Definition th_of (colspan : option string) (label : string) : tag :=
  {| attrs := match colspan with
              | Some c => [("colspan"%string, c)]
              | None => []
              end;
     contents := [Text label] |}.

Definition td_of (text : string) : tag :=
  {| attrs := []; contents := [Text text] |}.

(** Rows as [ab -w] prints them: a title over four columns, two summary
    rows, the heading of the timing table and one of its rows. *)
Definition sample_rows : list tr :=
  [ {| find_all_th := [th_of (Some "4") "Connnection Times (ms)"];
       find_all_td := [] |};
    {| find_all_th := [th_of (Some "2") "Server Software:"];
       find_all_td := [td_of "nginx"] |};
    {| find_all_th := [th_of (Some "2") "Complete requests:"];
       find_all_td := [td_of "1000"] |};
    {| find_all_th := [th_of None " "%string; th_of None "min"%string;
                       th_of None "avg"%string; th_of None "max"%string];
       find_all_td := [] |};
    {| find_all_th := [th_of None "Connect:"];
       find_all_td := [td_of "0"; td_of "1"; td_of "12"] |} ]%string.

Definition sample_world (rc : Z) (bs4 : bool) : world :=
  {| get_bin_path := Some "/usr/bin/ab"%string;
     run_command := fun _ => (rc, "<table/>"%string, ""%string);
     HAS_BEAUTIFUL_SOUP := bs4;
     find_all_tr := fun _ => sample_rows |}.

End AbMain.

(** * Properties *)

(** ** The exact instance satisfies the float laws *)

Module ExactLaws.
Import Exact.

Lemma Q_flt_zero_nonzero (x : Q) :
  flt (of_Z 0) x = true -> is_zero x = false.
Proof.
  simpl. intros Hlt.
  destruct (Qeq_bool x 0) eqn:E; [|reflexivity].
  apply Qeq_bool_eq in E.
  assert (Hle : Qle_bool x (inject_Z 0) = true).
  { apply Qle_bool_iff. rewrite E. apply Qle_refl. }
  rewrite Hle in Hlt. discriminate.
Qed.

Lemma Q_is_zero_of_Z (n : Z) : is_zero (of_Z n) = (n =? 0).
Proof.
  simpl. unfold Qeq_bool. simpl. rewrite Z.mul_1_r.
  destruct n; reflexivity.
Qed.

#[export] Instance Q_float_laws : PyFloatLaws Q := {
  flt_zero_nonzero := Q_flt_zero_nonzero;
  is_zero_of_Z := Q_is_zero_of_Z
}.

End ExactLaws.

(** ** The executor *)

Section ExecutorFacts.
Context {F : Type} `{PyFloat F}.

(** A call of [run_test] that returns: the request was answered, the body
    was read, and the events happened in this order. *)
Lemma run_test_returns (env : worker_env F) (u : string) (ka vl : bool)
    (p p' : proc F) (x : URIResult F) :
  run_test env u ka vl p = (inr x, p') ->
  exists res body,
    w_open_url env u (headers_of ka) = inr res /\
    read res = inr body /\
    x = mkURIResult (code res)
          (fsub (w_clock env (S (ticks p))) (w_clock env (ticks p)))
          (Z.of_nat (List.length body)) (Z.of_nat (List.length body)) /\
    trace p' = trace p ++
      [EvTime (w_clock env (ticks p)); EvOpenUrl u (headers_of ka);
       EvTime (w_clock env (S (ticks p))); EvInfo;
       EvRead (List.length body)].
Proof.
  unfold run_test, Worker.bind, Worker.time_time, Worker.open_url,
    Worker.res_info, Worker.res_read, Worker.emit, Worker.bind,
    Worker.raise, Worker.ret.
  simpl.
  replace (if ka then [("Connection"%string, "keep-alive"%string)] else [])
    with (headers_of ka) by reflexivity.
  destruct (w_open_url env u (headers_of ka)) as [e|res]; [discriminate|].
  simpl. destruct (read res) as [e|body] eqn:Hread; [discriminate|].
  simpl. intros Heq. inversion Heq; subst; clear Heq.
  exists res, body. repeat split; try assumption.
  simpl. repeat rewrite <- app_assoc. reflexivity.
Qed.

(** A call of [run_test] that raises, raises an error of the network. *)
Lemma run_test_raises (env : worker_env F) (u : string) (ka vl : bool)
    (p p' : proc F) (e : exn) :
  run_test env u ka vl p = (inl e, p') -> exists ne, e = Transport ne.
Proof.
  unfold run_test, Worker.bind, Worker.time_time, Worker.open_url,
    Worker.res_info, Worker.res_read, Worker.emit, Worker.bind,
    Worker.raise, Worker.ret.
  simpl.
  destruct (w_open_url env u _) as [ne|res].
  - intros Heq. inversion Heq. eauto.
  - simpl. destruct (read res) as [ne|body].
    + intros Heq. inversion Heq. eauto.
    + simpl. discriminate.
Qed.

(** [run_test] never looks at [variable_length]. *)
Lemma run_test_variable_length (env : worker_env F) (u : string)
    (ka vl vl' : bool) :
  run_test env u ka vl = run_test env u ka vl'.
Proof. reflexivity. Qed.

End ExecutorFacts.

(** ** The result loop *)

Section LoopFacts.
Context {F : Type}.

(** When every handle holds a result, the loop is a left fold. *)
Lemma main_loop_ok (rs : list (URIResult F)) (acc : totals) (d : driver) :
  main_loop (map inr rs) acc d = (inr (fold_left add_result rs acc), d).
Proof.
  revert acc. induction rs as [|r rs IH]; intros acc; simpl.
  - reflexivity.
  - unfold Driver.bind. simpl. apply IH.
Qed.

(** The first handle that holds an exception ends the loop with it. *)
Lemma main_loop_raise (rs : list (URIResult F)) (e : exn)
    (rest : list (AsyncResult (URIResult F))) (acc : totals) (d : driver) :
  main_loop (map inr rs ++ inl e :: rest) acc d = (inl (Raise e), d).
Proof.
  revert acc. induction rs as [|r rs IH]; intros acc; simpl.
  - reflexivity.
  - unfold Driver.bind. simpl. apply IH.
Qed.

(** Every list of handles is of one of the two shapes. *)
Lemma handles_split {A : Type} (hs : list (AsyncResult A)) :
  (exists rs, hs = map inr rs) \/
  (exists rs e rest, hs = map inr rs ++ inl e :: rest).
Proof.
  induction hs as [|[e|r] hs IH].
  - left. exists []. reflexivity.
  - right. exists [], e, hs. reflexivity.
  - destruct IH as [[rs ->]|[rs [e [rest ->]]]].
    + left. exists (r :: rs). reflexivity.
    + right. exists (r :: rs), e, rest. reflexivity.
Qed.

Lemma main_loop_returns (hs : list (AsyncResult (URIResult F)))
    (acc t : totals) (d d' : driver) :
  main_loop hs acc d = (inr t, d') ->
  exists rs, hs = map inr rs /\ t = fold_left add_result rs acc /\ d' = d.
Proof.
  destruct (handles_split hs) as [[rs ->]|[rs [e [rest ->]]]].
  - rewrite main_loop_ok. intros Heq. inversion Heq. eauto.
  - rewrite main_loop_raise. discriminate.
Qed.

Lemma main_loop_stops (hs : list (AsyncResult (URIResult F)))
    (acc : totals) (s : stop F) (d d' : driver) :
  main_loop hs acc d = (inl s, d') ->
  exists e, s = Raise e /\ In (inl e) hs /\ d' = d.
Proof.
  destruct (handles_split hs) as [[rs ->]|[rs [e [rest ->]]]].
  - rewrite main_loop_ok. discriminate.
  - rewrite main_loop_raise. intros Heq. inversion Heq. exists e.
    repeat split. apply in_or_app. right. left. reflexivity.
Qed.

(** The three counters after the fold. *)
Lemma fold_total_bytes (rs : list (URIResult F)) (acc : totals) :
  total_bytes (fold_left add_result rs acc)
  = total_bytes acc + Zsum (map total_length rs).
Proof.
  revert acc. induction rs as [|r rs IH]; intros acc; simpl.
  - lia.
  - rewrite IH. simpl. lia.
Qed.

Lemma fold_total_content_bytes (rs : list (URIResult F)) (acc : totals) :
  total_content_bytes (fold_left add_result rs acc)
  = total_content_bytes acc + Zsum (map content_length rs).
Proof.
  revert acc. induction rs as [|r rs IH]; intros acc; simpl.
  - lia.
  - rewrite IH. simpl. lia.
Qed.

Lemma error_test_outside (s : Z) :
  (s <? 200) || (s >=? 400) = outside_200_400 s.
Proof.
  unfold outside_200_400.
  destruct (s <? 200) eqn:E1, (s >=? 400) eqn:E2,
    (200 <=? s) eqn:E3, (s <? 400) eqn:E4; simpl; try reflexivity; lia.
Qed.

Lemma fold_total_errors (rs : list (URIResult F)) (acc : totals) :
  total_errors (fold_left add_result rs acc)
  = total_errors acc + count_failed rs.
Proof.
  unfold count_failed.
  revert acc. induction rs as [|r rs IH]; intros acc; simpl.
  - lia.
  - rewrite IH. simpl. rewrite error_test_outside.
    destruct (outside_200_400 (status r)); simpl List.length; lia.
Qed.

(** Two turns of the loop commute. *)
Lemma add_result_comm (acc : totals) (x y : URIResult F) :
  add_result (add_result acc x) y = add_result (add_result acc y) x.
Proof.
  unfold add_result. simpl.
  destruct ((status x <? 200) || (status x >=? 400)),
    ((status y <? 200) || (status y >=? 400)); f_equal; lia.
Qed.

Lemma fold_add_result_perm (rs rs' : list (URIResult F)) :
  Permutation rs rs' ->
  forall acc, fold_left add_result rs acc = fold_left add_result rs' acc.
Proof.
  induction 1 as [|x l l' _ IH|x y l|l l' l'' _ IH1 _ IH2]; intros acc; simpl.
  - reflexivity.
  - apply IH.
  - rewrite add_result_comm. reflexivity.
  - rewrite IH1. apply IH2.
Qed.

End LoopFacts.

(** ** The driver *)

Section DriverFacts.
Context {F : Type} `{PyFloatLaws F}.
Variable w : world F.

(** Handing the tasks to the pool: the k-th handle holds what the k-th
    task did in its worker, and every task counts as one call. *)
Lemma submit_all_eq (u : string) (ka vl : bool) (indices : list Z)
    (d : driver) :
  submit_all w u ka vl indices d
  = (inr (map (fun k => fst (run_test (worker w k) u ka vl proc0))
            (seq (calls d) (List.length indices))),
     mkDriver (d_ticks d) (pool_processes d)
       (calls d + List.length indices)%nat).
Proof.
  revert d. induction indices as [|i rest IH]; intros d; simpl.
  - unfold Driver.ret. destruct d; simpl. rewrite Nat.add_0_r. reflexivity.
  - unfold Driver.bind, Driver.apply_async. rewrite IH. simpl.
    unfold Driver.ret. do 3 f_equal. lia.
Qed.

Lemma range_length (n : Z) : List.length (range 0 n) = Z.to_nat n.
Proof.
  unfold range. rewrite length_map, length_seq. f_equal. lia.
Qed.

(** A run with accepted parameters, up to the result loop. *)
Lemma run_valid (params : config) :
  1 <= workers params -> 1 <= request_count params ->
  run w params =
    let d1 := mkDriver 2
                (Some (if request_count params <? workers params
                       then request_count params else workers params))
                (Z.to_nat (request_count params)) in
    match main_loop (async_results w params) (mkTotals 0 0 0) d1 with
    | (inl s, d) => (s, d)
    | (inr acc, d) =>
        if is_zero (run_total_time w) then (Raise ZeroDivisionError, d)
        else (ExitJson (report_of w params acc), d)
    end.
Proof.
  intros Hw Hr.
  assert (Ew : (workers params <? 1) = false) by (apply Z.ltb_ge; lia).
  assert (Er : (request_count params <? 1) = false) by (apply Z.ltb_ge; lia).
  assert (Ep : ((if request_count params <? workers params
                 then request_count params else workers params) <? 1)
               = false).
  { destruct (request_count params <? workers params); assumption. }
  unfold run, main. cbv zeta.
  unfold Driver.bind at 1. rewrite Ew. unfold Driver.ret at 1.
  unfold Driver.bind at 1. rewrite Er. unfold Driver.ret at 1.
  unfold Driver.bind at 1. unfold Driver.Pool. rewrite Ep.
  unfold Driver.bind at 1. unfold Driver.time_time at 1.
  unfold Driver.bind at 1. rewrite submit_all_eq. rewrite range_length.
  unfold Driver.bind at 1. unfold Driver.pool_close, Driver.ret at 1.
  unfold Driver.bind at 1. unfold Driver.pool_join, Driver.ret at 1.
  unfold Driver.bind at 1. unfold Driver.time_time at 1.
  simpl d_ticks. simpl pool_processes. simpl calls.
  fold (run_total_time w).
  change (map _ (seq 0 (Z.to_nat (request_count params))))
    with (async_results w params).
  unfold Driver.bind at 1.
  destruct (main_loop (async_results w params) (mkTotals 0 0 0) _)
    as [[s|acc] d]; [reflexivity|].
  unfold Driver.bind, Driver.py_div.
  destruct (is_zero (run_total_time w)) eqn:Ez.
  - reflexivity.
  - unfold Driver.ret. change (2 ^ 10) with 1024.
    rewrite is_zero_of_Z. reflexivity.
Qed.

End DriverFacts.

Section RunFacts.
Context {F : Type} `{PyFloatLaws F}.
Variable w : world F.

(** Refused parameters: the run ends in the driver's first state. *)
Lemma run_refused_workers (params : config) :
  workers params < 1 ->
  run w params = (FailJson "workers must be greater than 0", driver0).
Proof.
  intros Hw. apply Z.ltb_lt in Hw.
  unfold run, main. cbv zeta. unfold Driver.bind at 1. rewrite Hw.
  reflexivity.
Qed.

Lemma run_refused_count (params : config) :
  1 <= workers params -> request_count params < 1 ->
  run w params = (Raise (AttributeError "fail"), driver0).
Proof.
  intros Hw Hr. apply Z.ltb_lt in Hr.
  assert (Ew : (workers params <? 1) = false) by (apply Z.ltb_ge; lia).
  unfold run, main. cbv zeta.
  unfold Driver.bind at 1. rewrite Ew. unfold Driver.ret at 1.
  unfold Driver.bind at 1. rewrite Hr. reflexivity.
Qed.

(** A run returns a report when the parameters are accepted, every task
    returned and the overall time is not zero. *)
Lemma run_completes (params : config) (rs : list (URIResult F)) :
  1 <= workers params -> 1 <= request_count params ->
  async_results w params = map inr rs ->
  is_zero (run_total_time w) = false ->
  run w params =
    (ExitJson (report_of w params (fold_left add_result rs (mkTotals 0 0 0))),
     mkDriver 2
       (Some (if request_count params <? workers params
              then request_count params else workers params))
       (Z.to_nat (request_count params))).
Proof.
  intros Hw Hr Hrs Hz. rewrite (run_valid w params Hw Hr). cbv zeta.
  rewrite Hrs, main_loop_ok, Hz. reflexivity.
Qed.

(** And only then. *)
Lemma run_report_inv (params : config) (r : report F) (d : driver) :
  run w params = (ExitJson r, d) ->
  1 <= workers params /\ 1 <= request_count params /\
  is_zero (run_total_time w) = false /\
  exists rs,
    async_results w params = map inr rs /\
    r = report_of w params (fold_left add_result rs (mkTotals 0 0 0)).
Proof.
  intros Hrun.
  destruct (Z_lt_le_dec (workers params) 1) as [Hw|Hw].
  { rewrite (run_refused_workers params Hw) in Hrun. discriminate. }
  destruct (Z_lt_le_dec (request_count params) 1) as [Hr|Hr].
  { rewrite (run_refused_count params Hw Hr) in Hrun. discriminate. }
  rewrite (run_valid w params Hw Hr) in Hrun. cbv zeta in Hrun.
  destruct (main_loop (async_results w params) (mkTotals 0 0 0) _)
    as [[s|acc] d'] eqn:Hloop.
  - apply main_loop_stops in Hloop. destruct Hloop as [e [-> _]].
    discriminate.
  - apply main_loop_returns in Hloop. destruct Hloop as [rs [Hrs [-> _]]].
    destruct (is_zero (run_total_time w)) eqn:Hz; [discriminate|].
    inversion Hrun; subst. repeat split; try assumption.
    exists rs. split; [assumption|reflexivity].
Qed.

(** A handle of a run that holds a result: the executor set both lengths
    to the number of bytes it read. *)
Lemma collected_lengths (params : config) (rs : list (URIResult F)) :
  async_results w params = map inr rs ->
  Forall (fun x => total_length x = content_length x) rs.
Proof.
  intros Hrs. apply Forall_forall. intros x Hx.
  assert (Hin : In (inr x) (async_results w params)).
  { rewrite Hrs. apply in_map. exact Hx. }
  unfold async_results in Hin. apply in_map_iff in Hin.
  destruct Hin as [k [Hk _]]. unfold task_result in Hk.
  destruct (run_test (worker w k) (uri params) (keepalive params)
              (variable_length params) proc0) as [a p'] eqn:Hrt.
  simpl in Hk. subst a. apply run_test_returns in Hrt.
  destruct Hrt as [res [body [_ [_ [-> _]]]]]. reflexivity.
Qed.

(** What the k-th task returned, from the answer it got. *)
Lemma task_result_lengths (params : config) (k : nat) (x : URIResult F) :
  task_result w params k = inr x ->
  exists res body,
    w_open_url (worker w k) (uri params) (headers_of (keepalive params))
    = inr res /\
    read res = inr body /\
    status x = code res /\
    content_length x = Z.of_nat (List.length body) /\
    total_length x = Z.of_nat (List.length body).
Proof.
  unfold task_result. intros Hk.
  destruct (run_test (worker w k) (uri params) (keepalive params)
              (variable_length params) proc0) as [a p'] eqn:Hrt.
  simpl in Hk. subst a. apply run_test_returns in Hrt.
  destruct Hrt as [res [body [Hres [Hbody [-> _]]]]].
  exists res, body. repeat split; assumption.
Qed.

Lemma Zsum_lengths (rs : list (URIResult F)) :
  Forall (fun x => total_length x = content_length x) rs ->
  Zsum (map total_length rs) = Zsum (map content_length rs).
Proof.
  induction 1 as [|x l Hx _ IH]; simpl; [reflexivity|]. rewrite Hx, IH.
  reflexivity.
Qed.

Lemma count_failed_in_range (rs : list (URIResult F)) :
  Forall (fun x => 200 <= status x < 400) rs -> count_failed rs = 0.
Proof.
  unfold count_failed. induction 1 as [|x l Hx _ IH]; simpl; [reflexivity|].
  unfold outside_200_400 at 1.
  replace (200 <=? status x) with true by (symmetry; apply Z.leb_le; lia).
  replace (status x <? 400) with true by (symmetry; apply Z.ltb_lt; lia).
  simpl. exact IH.
Qed.

End RunFacts.

(** ** The properties of the report *)

Section Report.
Context {F : Type} `{PyFloatLaws F}.
Variable w : world F.

(** C1, as the code has it: an error of the network in one call of the
    executor is kept in that task's handle while all [request_count] calls
    are made; [get] raises the first such error in the result loop, and
    the run ends with it and without a report. *)
Theorem transport_error_ends_run (params : config)
    (rs : list (URIResult F)) (e : exn)
    (rest : list (AsyncResult (URIResult F))) :
  1 <= workers params -> 1 <= request_count params ->
  async_results w params = map inr rs ++ inl e :: rest ->
  fst (run w params) = Raise e /\
  calls (snd (run w params)) = Z.to_nat (request_count params) /\
  (exists ne, e = Transport ne) /\
  forall r, fst (run w params) <> ExitJson r.
Proof.
  intros Hw Hr Hrs.
  assert (Hrun : fst (run w params) = Raise e /\
                 calls (snd (run w params)) = Z.to_nat (request_count params)).
  { rewrite (run_valid w params Hw Hr). cbv zeta.
    rewrite Hrs, main_loop_raise. split; reflexivity. }
  destruct Hrun as [Hfst Hcalls]. repeat split; try assumption.
  - assert (Hin : In (inl e) (async_results w params)).
    { rewrite Hrs. apply in_or_app. right. left. reflexivity. }
    unfold async_results in Hin. apply in_map_iff in Hin.
    destruct Hin as [k [Hk _]]. unfold task_result in Hk.
    destruct (run_test (worker w k) (uri params) (keepalive params)
                (variable_length params) proc0) as [a p'] eqn:Hrt.
    simpl in Hk. subst a. apply run_test_raises in Hrt. exact Hrt.
  - intros r Hrep. rewrite Hfst in Hrep. discriminate.
Qed.

(** C2: with [workers < 1] or [request_count < 1] the run ends in an error
    before the pool exists and before any call of the executor: the driver
    is still in its first state.  For [workers < 1] the error is the
    [fail_json] message; for [request_count < 1] it is the [AttributeError]
    of [module.fail]. *)
Theorem invalid_parameters_refused (params : config) :
  workers params < 1 \/ request_count params < 1 ->
  is_error (fst (run w params)) = true /\
  calls (snd (run w params)) = 0%nat /\
  snd (run w params) = driver0 /\
  (workers params < 1 ->
   fst (run w params) = FailJson "workers must be greater than 0") /\
  (1 <= workers params ->
   fst (run w params) = Raise (AttributeError "fail")).
Proof.
  intros Hbad.
  destruct (Z_lt_le_dec (workers params) 1) as [Hw|Hw].
  - rewrite (run_refused_workers w params Hw). simpl.
    repeat split; try reflexivity. intros Hw'. lia.
  - assert (Hr : request_count params < 1) by lia.
    rewrite (run_refused_count w params Hw Hr). simpl.
    repeat split; try reflexivity. intros Hw'. lia.
Qed.

(** C3: with [1 <= request_count < workers] the pool is created with
    [request_count] processes, and the run is not refused for its
    parameters. *)
Theorem pool_size_clamped (params : config) :
  1 <= request_count params ->
  request_count params < workers params ->
  pool_processes (snd (run w params)) = Some (request_count params) /\
  config_error (fst (run w params)) = false.
Proof.
  intros Hr Hlt.
  assert (Hw : 1 <= workers params) by lia.
  rewrite (run_valid w params Hw Hr). cbv zeta.
  apply Z.ltb_lt in Hlt. rewrite Hlt.
  destruct (main_loop (async_results w params) (mkTotals 0 0 0) _)
    as [[s|acc] d] eqn:Hloop.
  - apply main_loop_stops in Hloop. destruct Hloop as [e [-> [Hin ->]]].
    split; [reflexivity|].
    unfold async_results in Hin. apply in_map_iff in Hin.
    destruct Hin as [k [Hk _]]. unfold task_result in Hk.
    destruct (run_test (worker w k) (uri params) (keepalive params)
                (variable_length params) proc0) as [a p'] eqn:Hrt.
    simpl in Hk. subst a. apply run_test_raises in Hrt.
    destruct Hrt as [ne ->]. reflexivity.
  - apply main_loop_returns in Hloop. destruct Hloop as [rs [_ [_ ->]]].
    destruct (is_zero (run_total_time w)); split; reflexivity.
Qed.

(** C4: [failed_requests] of a report is the number of collected results
    whose status is outside [200, 400); results inside the interval add
    nothing to it. *)
Theorem failed_requests_counts_outside (params : config) (r : report F)
    (d : driver) :
  run w params = (ExitJson r, d) ->
  exists rs,
    async_results w params = map inr rs /\
    failed_requests r = count_failed rs /\
    (Forall (fun x => 200 <= status x < 400) rs -> failed_requests r = 0).
Proof.
  intros Hrun. apply run_report_inv in Hrun.
  destruct Hrun as [_ [_ [_ [rs [Hrs ->]]]]].
  exists rs. split; [assumption|]. simpl. rewrite fold_total_errors. simpl.
  split; [reflexivity|]. intros Hin. apply count_failed_in_range. exact Hin.
Qed.

(** C5: [total_bytes_transferred] of a report is the sum of
    [content_length] over the collected results and equals
    [total_content_bytes_transferred], every collected result having
    [total_length = content_length]: the executor sets both to the number
    of body bytes it read. *)
Theorem total_bytes_is_content_bytes (params : config) (r : report F)
    (d : driver) :
  run w params = (ExitJson r, d) ->
  exists rs,
    async_results w params = map inr rs /\
    Forall (fun x => total_length x = content_length x) rs /\
    total_bytes_transferred r = Zsum (map content_length rs) /\
    total_bytes_transferred r = total_content_bytes_transferred r /\
    forall k x, task_result w params k = inr x ->
      exists res body,
        w_open_url (worker w k) (uri params) (headers_of (keepalive params))
        = inr res /\
        read res = inr body /\
        content_length x = Z.of_nat (List.length body) /\
        total_length x = Z.of_nat (List.length body).
Proof.
  intros Hrun. apply run_report_inv in Hrun.
  destruct Hrun as [_ [_ [_ [rs [Hrs ->]]]]].
  pose proof (collected_lengths w params rs Hrs) as Hlen.
  exists rs. split; [assumption|]. split; [assumption|]. simpl.
  rewrite fold_total_bytes, fold_total_content_bytes. simpl.
  rewrite (Zsum_lengths rs Hlen). repeat split.
  intros k x Hk. apply task_result_lengths in Hk.
  destruct Hk as [res [body [Hres [Hbody [_ [Hc Ht]]]]]].
  exists res, body. repeat split; assumption.
Qed.

(** C6: a run with accepted parameters whose tasks all returned and whose
    [total_time] is above zero returns a report in which [total_time] is
    end minus start rounded to 3 digits, [requests_per_second] is
    [request_count / total_time] rounded to 2 digits and
    [kbytes_per_second] is [(total_bytes_transferred / total_time) / 1024]
    rounded to 2 digits. *)
Theorem rates_rounded (params : config) (rs : list (URIResult F)) :
  1 <= workers params -> 1 <= request_count params ->
  async_results w params = map inr rs ->
  flt (of_Z 0) (run_total_time w) = true ->
  exists r d,
    run w params = (ExitJson r, d) /\
    total_time r = round (fsub (main_clock w 1%nat) (main_clock w 0%nat)) 3 /\
    requests_per_second r
    = round (fdiv (of_Z (request_count params)) (total_time r)) 2 /\
    kbytes_per_second r
    = round (fdiv (fdiv (of_Z (total_bytes_transferred r)) (total_time r))
               (of_Z 1024)) 2.
Proof.
  intros Hw Hr Hrs Hpos. apply flt_zero_nonzero in Hpos.
  rewrite (run_completes w params rs Hw Hr Hrs Hpos).
  eexists. eexists. split; [reflexivity|]. simpl. repeat split.
Qed.

(** C7, as the code has it: when [total_time] rounds to zero no report is
    returned, and a run with accepted parameters whose tasks all returned
    ends with [ZeroDivisionError]. *)
Theorem zero_total_time_raises (params : config) :
  is_zero (run_total_time w) = true ->
  (forall r, fst (run w params) <> ExitJson r) /\
  (1 <= workers params -> 1 <= request_count params ->
   forall rs, async_results w params = map inr rs ->
   fst (run w params) = Raise ZeroDivisionError).
Proof.
  intros Hz. split.
  - intros r Hrun.
    destruct (run w params) as [s d] eqn:Hrw. simpl in Hrun. subst s.
    apply run_report_inv in Hrw. destruct Hrw as [_ [_ [Hnz _]]].
    rewrite Hz in Hnz. discriminate.
  - intros Hw Hr rs Hrs. rewrite (run_valid w params Hw Hr). cbv zeta.
    rewrite Hrs, main_loop_ok, Hz. reflexivity.
Qed.

End Report.

(** ** Timing, order and the unused flag *)

Section Independence.
Context {F : Type} `{PyFloat F}.

(** C8, as the code has it: in a call of the executor that returns, the
    second clock reading is taken when [open_url] has returned and before
    the body is read; [time] is the difference of the two readings, and
    the clock is not read after the body. *)
Theorem end_time_precedes_body_read (env : worker_env F) (u : string)
    (ka vl : bool) (x : URIResult F) (p' : proc F) :
  run_test env u ka vl proc0 = (inr x, p') ->
  exists body : list Byte.byte,
    trace p' =
      [EvTime (w_clock env 0%nat); EvOpenUrl u (headers_of ka);
       EvTime (w_clock env 1%nat); EvInfo; EvRead (List.length body)] /\
    time x = fsub (w_clock env 1%nat) (w_clock env 0%nat) /\
    content_length x = Z.of_nat (List.length body) /\
    time_after_read (trace p') = false.
Proof.
  intros Hrt. apply run_test_returns in Hrt.
  destruct Hrt as [res [body [_ [_ [-> Htr]]]]].
  exists body. simpl in Htr. rewrite Htr. repeat split.
Qed.

(** C9: the result loop gives the same three counters on every
    permutation of the collected results. *)
Theorem reduction_order_independent (rs rs' : list (URIResult F))
    (acc : totals) (d : driver) :
  Permutation rs rs' ->
  main_loop (map inr rs) acc d = main_loop (map inr rs') acc d.
Proof.
  intros Hperm. rewrite !main_loop_ok.
  rewrite (fold_add_result_perm rs rs' Hperm acc). reflexivity.
Qed.

Lemma submit_all_variable_length (w : world F) (u : string)
    (ka vl vl' : bool) (indices : list Z) (d : driver) :
  submit_all w u ka vl indices d = submit_all w u ka vl' indices d.
Proof.
  revert d. induction indices as [|i rest IH]; intros d; simpl.
  - reflexivity.
  - unfold Driver.bind. simpl. rewrite IH. reflexivity.
Qed.

(** C10: in the same world, a run with [variable_length] set and the run
    with it unset end the same way, with the same report and the same
    driver state. *)
Theorem variable_length_has_no_effect (w : world F) (u : string)
    (n wk : Z) (ka : bool) :
  run w {| uri := u; request_count := n; workers := wk; keepalive := ka;
           variable_length := true |}
  = run w {| uri := u; request_count := n; workers := wk; keepalive := ka;
             variable_length := false |}.
Proof.
  unfold run, main. cbv zeta. simpl uri. simpl request_count.
  simpl workers. simpl keepalive. simpl variable_length.
  unfold Driver.bind.
  destruct (wk <? 1); [reflexivity|]. simpl.
  destruct (n <? 1); [reflexivity|]. simpl.
  destruct (Driver.Pool _ _) as [[s|[]] d]; [reflexivity|].
  simpl.
  rewrite (submit_all_variable_length w u ka true false).
  reflexivity.
Qed.

End Independence.

(** ** Concrete runs *)

Import Exact ExactLaws.

(** C1 fails as stated: in the world [flaky] the second of four requests
    times out, and the run ends with that exception instead of a report. *)
Lemma transport_error_absorbed_counterexample :
  task_result flaky (params_of 4 2 false) 1
  = inl (Transport SocketTimeout) /\
  run flaky (params_of 4 2 false)
  = (Raise (Transport SocketTimeout), mkDriver 2 (Some 2) 4) /\
  ~ (exists r d, run flaky (params_of 4 2 false) = (ExitJson r, d)).
Proof.
  split; [reflexivity|]. split; [reflexivity|].
  intros [r [d Hrun]]. vm_compute in Hrun. discriminate.
Qed.

Lemma transport_error_ends_run_witness :
  1 <= workers (params_of 4 2 false) /\
  1 <= request_count (params_of 4 2 false) /\
  async_results flaky (params_of 4 2 false)
  = map inr [mkURIResult 200 (2 # 1) 100 100]
    ++ inl (Transport SocketTimeout)
       :: [inr (mkURIResult 200 (2 # 1) 5 5);
           inr (mkURIResult 200 (2 # 1) 5 5)] /\
  fst (run flaky (params_of 4 2 false)) = Raise (Transport SocketTimeout) /\
  calls (snd (run flaky (params_of 4 2 false))) = 4%nat.
Proof.
  assert (Hw : 1 <= workers (params_of 4 2 false)) by (simpl; lia).
  assert (Hr : 1 <= request_count (params_of 4 2 false)) by (simpl; lia).
  assert (Hrs : async_results flaky (params_of 4 2 false)
                = map inr [mkURIResult 200 (2 # 1) 100 100]
                  ++ inl (Transport SocketTimeout)
                     :: [inr (mkURIResult 200 (2 # 1) 5 5);
                         inr (mkURIResult 200 (2 # 1) 5 5)])
    by reflexivity.
  destruct (transport_error_ends_run flaky (params_of 4 2 false) _ _ _
              Hw Hr Hrs) as [Hfst [Hcalls _]].
  repeat split; assumption.
Defined.

Lemma invalid_parameters_refused_witness :
  (workers (params_of 0 5 false) < 1 \/
   request_count (params_of 0 5 false) < 1) /\
  is_error (fst (run steady (params_of 0 5 false))) = true /\
  calls (snd (run steady (params_of 0 5 false))) = 0%nat.
Proof.
  assert (Hbad : workers (params_of 0 5 false) < 1 \/
                 request_count (params_of 0 5 false) < 1)
    by (right; simpl; lia).
  destruct (invalid_parameters_refused steady (params_of 0 5 false) Hbad)
    as [Herr [Hcalls _]].
  repeat split; assumption.
Defined.

Lemma pool_size_clamped_witness :
  1 <= request_count (params_of 10 50 false) /\
  request_count (params_of 10 50 false) < workers (params_of 10 50 false) /\
  pool_processes (snd (run steady (params_of 10 50 false))) = Some 10.
Proof.
  assert (Hr : 1 <= request_count (params_of 10 50 false)) by (simpl; lia).
  assert (Hlt : request_count (params_of 10 50 false)
                < workers (params_of 10 50 false)) by (simpl; lia).
  destruct (pool_size_clamped steady (params_of 10 50 false) Hr Hlt)
    as [Hpool _].
  repeat split; assumption.
Defined.

Lemma failed_requests_counts_outside_witness :
  run mixed (params_of 5 2 false)
  = (ExitJson (mkReport (123 # 1000) 113 113 (813 # 20) (9 # 10) 3),
     mkDriver 2 (Some 2) 5) /\
  exists rs,
    async_results mixed (params_of 5 2 false) = map inr rs /\
    3 = count_failed rs.
Proof.
  assert (Hrun : run mixed (params_of 5 2 false)
                 = (ExitJson (mkReport (123 # 1000) 113 113 (813 # 20)
                                (9 # 10) 3),
                    mkDriver 2 (Some 2) 5))
    by (vm_compute; reflexivity).
  split; [exact Hrun|].
  destruct (failed_requests_counts_outside mixed (params_of 5 2 false) _ _
              Hrun) as [rs [Hrs [Hcount _]]].
  exists rs. split; assumption.
Defined.

Lemma total_bytes_is_content_bytes_witness :
  run steady (params_of 20 4 false)
  = (ExitJson (mkReport (2 # 1) 2000 2000 (10 # 1) (49 # 50) 0),
     mkDriver 2 (Some 4) 20) /\
  exists rs,
    async_results steady (params_of 20 4 false) = map inr rs /\
    2000 = Zsum (map content_length rs).
Proof.
  assert (Hrun : run steady (params_of 20 4 false)
                 = (ExitJson (mkReport (2 # 1) 2000 2000 (10 # 1)
                                (49 # 50) 0),
                    mkDriver 2 (Some 4) 20))
    by (vm_compute; reflexivity).
  split; [exact Hrun|].
  destruct (total_bytes_is_content_bytes steady (params_of 20 4 false) _ _
              Hrun) as [rs [Hrs [_ [Hsum _]]]]. simpl in Hsum.
  exists rs. split; assumption.
Defined.

Lemma rates_rounded_witness :
  1 <= workers (params_of 4 50 false) /\
  1 <= request_count (params_of 4 50 false) /\
  async_results steady (params_of 4 50 false)
  = map inr (repeat (mkURIResult 200 (2 # 1) 100 100) 4) /\
  flt (of_Z 0) (run_total_time steady) = true /\
  exists r d,
    run steady (params_of 4 50 false) = (ExitJson r, d) /\
    requests_per_second r
    = round (fdiv (of_Z (request_count (params_of 4 50 false)))
               (total_time r)) 2.
Proof.
  assert (Hw : 1 <= workers (params_of 4 50 false)) by (simpl; lia).
  assert (Hr : 1 <= request_count (params_of 4 50 false)) by (simpl; lia).
  assert (Hrs : async_results steady (params_of 4 50 false)
                = map inr (repeat (mkURIResult 200 (2 # 1) 100 100) 4))
    by reflexivity.
  assert (Hpos : flt (of_Z 0) (run_total_time steady) = true)
    by reflexivity.
  destruct (rates_rounded steady (params_of 4 50 false) _ Hw Hr Hrs Hpos)
    as [r [d [Hrun [_ [Hrps _]]]]].
  repeat split; try assumption.
  exists r, d. split; assumption.
Defined.

(** C7 fails as stated: in the world [instant] the driver reads the same
    time before and after the batch, [total_time] is zero, and the run
    ends with [ZeroDivisionError] instead of a report. *)
Lemma zero_total_time_guarded_counterexample :
  is_zero (run_total_time instant) = true /\
  run instant (params_of 4 50 false)
  = (Raise ZeroDivisionError, mkDriver 2 (Some 4) 4) /\
  ~ (exists r d, run instant (params_of 4 50 false) = (ExitJson r, d)).
Proof.
  split; [reflexivity|]. split; [vm_compute; reflexivity|].
  intros [r [d Hrun]]. vm_compute in Hrun. discriminate.
Qed.

Lemma zero_total_time_raises_witness :
  is_zero (run_total_time instant) = true /\
  forall r, fst (run instant (params_of 4 50 false)) <> ExitJson r.
Proof.
  assert (Hz : is_zero (run_total_time instant) = true) by reflexivity.
  destruct (zero_total_time_raises instant (params_of 4 50 false) Hz)
    as [Hno _].
  split; assumption.
Defined.

(** C8 fails as stated: in this call the body of 10 bytes is read after
    the second clock reading, and the clock is not read again. *)
Lemma elapsed_covers_body_read_counterexample :
  run_test (worker_of 1 3 (answered 200 10)) "u" true false proc0
  = (inr (mkURIResult 200 (2 # 1) 10 10),
     mkProc 2
       [EvTime (1 # 1); EvOpenUrl "u" [("Connection", "keep-alive")%string];
        EvTime (3 # 1); EvInfo; EvRead 10]) /\
  time_after_read
    (trace (snd (run_test (worker_of 1 3 (answered 200 10)) "u" true false
                   proc0))) = false.
Proof. split; reflexivity. Qed.

Lemma end_time_precedes_body_read_witness :
  run_test (worker_of 1 3 (answered 200 10)) "u" true false proc0
  = (inr (mkURIResult 200 (2 # 1) 10 10),
     mkProc 2
       [EvTime (1 # 1); EvOpenUrl "u" [("Connection", "keep-alive")%string];
        EvTime (3 # 1); EvInfo; EvRead 10]) /\
  time (mkURIResult 200 (2 # 1) 10 10)
  = fsub (w_clock (worker_of 1 3 (answered 200 10)) 1%nat)
      (w_clock (worker_of 1 3 (answered 200 10)) 0%nat).
Proof.
  assert (Hrt : run_test (worker_of 1 3 (answered 200 10)) "u" true false
                  proc0
                = (inr (mkURIResult 200 (2 # 1) 10 10),
                   mkProc 2
                     [EvTime (1 # 1);
                      EvOpenUrl "u" [("Connection", "keep-alive")%string];
                      EvTime (3 # 1); EvInfo; EvRead 10]))
    by reflexivity.
  split; [exact Hrt|].
  destruct (end_time_precedes_body_read _ _ _ _ _ _ Hrt)
    as [body [_ [Htime _]]].
  exact Htime.
Defined.

Lemma reduction_order_independent_witness :
  Permutation
    [mkURIResult 200 (1 # 1) 100 100; mkURIResult 503 (2 # 1) 7 7]
    [mkURIResult 503 (2 # 1) 7 7; mkURIResult 200 (1 # 1) 100 100] /\
  main_loop
    (map inr [mkURIResult 200 (1 # 1) 100 100; mkURIResult 503 (2 # 1) 7 7])
    (mkTotals 0 0 0) driver0
  = main_loop
      (map inr [mkURIResult 503 (2 # 1) 7 7; mkURIResult 200 (1 # 1) 100 100])
      (mkTotals 0 0 0) driver0.
Proof.
  assert (Hperm : Permutation
    [mkURIResult 200 (1 # 1) 100 100; mkURIResult 503 (2 # 1) 7 7]
    [mkURIResult 503 (2 # 1) 7 7; mkURIResult 200 (1 # 1) 100 100])
    by apply perm_swap.
  split; [exact Hperm|].
  exact (reduction_order_independent _ _ (mkTotals 0 0 0) driver0 Hperm).
Defined.

(** * Further properties *)

(** ** The executor, whatever the network does *)

Section ExecutorOutcomes.
Context {F : Type} `{PyFloat F}.

(** X1: a call of the executor returns a result exactly when [open_url]
    answers and the body of the answer can be read. *)
Theorem run_test_returns_iff (env : worker_env F) (u : string)
    (ka vl : bool) :
  (exists x p', run_test env u ka vl proc0 = (inr x, p')) <->
  (exists res body,
     w_open_url env u (headers_of ka) = inr res /\ read res = inr body).
Proof.
  split.
  - intros [x [p' Hrt]]. apply run_test_returns in Hrt.
    destruct Hrt as [res [body [Hres [Hbody _]]]]. eauto.
  - intros [res [body [Hres Hbody]]].
    unfold run_test, Worker.bind, Worker.time_time, Worker.open_url,
      Worker.res_info, Worker.res_read, Worker.emit, Worker.bind,
      Worker.raise, Worker.ret.
    simpl.
    replace (if ka then [("Connection"%string, "keep-alive"%string)] else [])
      with (headers_of ka) by reflexivity.
    rewrite Hres. simpl. rewrite Hbody. simpl. eauto.
Qed.

(** X2: when [open_url] raises, the executor raises the same error after
    one clock reading: there is no end time, no body is read and no result
    is made. *)
Theorem open_url_error_propagates (env : worker_env F) (u : string)
    (ka vl : bool) (e : net_error) :
  w_open_url env u (headers_of ka) = inl e ->
  run_test env u ka vl proc0
  = (inl (Transport e),
     mkProc 1 [EvTime (w_clock env 0%nat); EvOpenUrl u (headers_of ka)]).
Proof.
  intros Hres.
  unfold run_test, Worker.bind, Worker.time_time, Worker.open_url,
    Worker.emit, Worker.bind, Worker.raise.
  simpl.
  replace (if ka then [("Connection"%string, "keep-alive"%string)] else [])
    with (headers_of ka) by reflexivity.
  rewrite Hres. reflexivity.
Qed.

(** X3: when the request was answered but reading the body raises, the
    executor raises that error: the status code and the two clock readings
    it already has are dropped with it. *)
Theorem body_read_error_drops_response (env : worker_env F) (u : string)
    (ka vl : bool) (res : http_response) (e : net_error) :
  w_open_url env u (headers_of ka) = inr res ->
  read res = inl e ->
  run_test env u ka vl proc0
  = (inl (Transport e),
     mkProc 2
       [EvTime (w_clock env 0%nat); EvOpenUrl u (headers_of ka);
        EvTime (w_clock env 1%nat); EvInfo]).
Proof.
  intros Hres Hread.
  unfold run_test, Worker.bind, Worker.time_time, Worker.open_url,
    Worker.res_info, Worker.res_read, Worker.emit, Worker.bind,
    Worker.raise, Worker.ret.
  simpl.
  replace (if ka then [("Connection"%string, "keep-alive"%string)] else [])
    with (headers_of ka) by reflexivity.
  rewrite Hres. simpl. rewrite Hread. reflexivity.
Qed.

(** X4: however a call of the executor ends, it has called [open_url]
    once, with the URI it was given and with the header
    [Connection: keep-alive] when [keepalive] is set and no header
    otherwise. *)
Theorem open_url_called_once (env : worker_env F) (u : string)
    (ka vl : bool) :
  open_url_events (trace (snd (run_test env u ka vl proc0)))
  = [(u, if ka then [("Connection", "keep-alive")%string] else [])].
Proof.
  unfold run_test, Worker.bind, Worker.time_time, Worker.open_url,
    Worker.res_info, Worker.res_read, Worker.emit, Worker.bind,
    Worker.raise, Worker.ret.
  simpl.
  destruct (w_open_url env u _) as [e|res]; [reflexivity|].
  simpl. destruct (read res) as [e|body]; reflexivity.
Qed.

End ExecutorOutcomes.

(** ** The result loop on a batch in two parts *)

Section LoopComposition.
Context {F : Type}.

(** X5: running the result loop over two lists of handles in a row is
    running it over the first and, when that raised nothing, over the
    second from the counters reached; an exception in the first part ends
    the loop before the second is looked at. *)
Theorem main_loop_app (hs1 hs2 : list (AsyncResult (URIResult F)))
    (acc : totals) (d : driver) :
  main_loop (hs1 ++ hs2) acc d
  = match main_loop hs1 acc d with
    | (inr acc', d') => main_loop hs2 acc' d'
    | (inl s, d') => (inl s, d')
    end.
Proof.
  revert acc. induction hs1 as [|[e|x] hs1 IH]; intros acc; simpl.
  - reflexivity.
  - reflexivity.
  - unfold Driver.bind. simpl. apply IH.
Qed.

Lemma main_loop_same_counts (hs hs' : list (AsyncResult (URIResult F))) :
  Forall2 same_counts hs hs' ->
  forall acc d, main_loop hs acc d = main_loop hs' acc d.
Proof.
  induction 1 as [|h h' l l' Hh _ IH]; intros acc d; simpl.
  - reflexivity.
  - destruct h as [e|x], h' as [e'|x']; simpl in Hh; try contradiction.
    + subst e'. reflexivity.
    + destruct Hh as [Hs [Hc Ht]]. unfold Driver.bind. simpl.
      unfold add_result. rewrite Hs, Hc, Ht. apply IH.
Qed.

Lemma Forall2_map_same {A B C : Type} (R : B -> C -> Prop) (f : A -> B)
    (g : A -> C) (l : list A) :
  (forall a, R (f a) (g a)) -> Forall2 R (map f l) (map g l).
Proof.
  intros HR. induction l as [|a l IH]; simpl; constructor; auto.
Qed.

Lemma count_failed_le (rs : list (URIResult F)) :
  0 <= count_failed rs <= Z.of_nat (List.length rs).
Proof.
  unfold count_failed. induction rs as [|x rs IH]; simpl; [lia|].
  destruct (outside_200_400 (status x)); simpl List.length; lia.
Qed.

Lemma count_failed_all (rs : list (URIResult F)) :
  count_failed rs = Z.of_nat (List.length rs) <->
  Forall (fun x => outside_200_400 (status x) = true) rs.
Proof.
  induction rs as [|x rs IH].
  - split; [constructor|reflexivity].
  - pose proof (count_failed_le rs) as Hle. unfold count_failed in *.
    simpl. destruct (outside_200_400 (status x)) eqn:Hx; simpl List.length.
    + split.
      * intros Hc. constructor; [assumption|]. apply IH. lia.
      * intros Hall. inversion Hall; subst. apply IH in H2. lia.
    + split; [lia|]. intros Hall. inversion Hall; subst. congruence.
Qed.

End LoopComposition.

(** ** Runs as a whole *)

Section RunOutcomes.
Context {F : Type} `{PyFloatLaws F}.

Lemma async_results_length (w : world F) (params : config)
    (rs : list (URIResult F)) :
  async_results w params = map inr rs ->
  List.length rs = Z.to_nat (request_count params).
Proof.
  intros Hrs. apply (f_equal (@List.length _)) in Hrs.
  unfold async_results in Hrs.
  rewrite !length_map, length_seq in Hrs. symmetry. exact Hrs.
Qed.

Lemma collected_nonneg (w : world F) (params : config)
    (rs : list (URIResult F)) :
  async_results w params = map inr rs ->
  0 <= Zsum (map total_length rs).
Proof.
  intros Hrs.
  assert (Hall : Forall (fun x => 0 <= total_length x) rs).
  { apply Forall_forall. intros x Hx.
    assert (Hin : In (inr x) (async_results w params)).
    { rewrite Hrs. apply in_map. exact Hx. }
    unfold async_results in Hin. apply in_map_iff in Hin.
    destruct Hin as [k [Hk _]]. apply task_result_lengths in Hk.
    destruct Hk as [res [body [_ [_ [_ [_ ->]]]]]]. lia. }
  clear Hrs. induction Hall as [|x l Hx _ IH]; simpl; lia.
Qed.

(** X6: a run returns a report exactly when the parameters are accepted,
    every task returned a result and the rounded overall time is not
    zero. *)
Theorem report_iff (w : world F) (params : config) :
  (exists r d, run w params = (ExitJson r, d)) <->
  (1 <= workers params /\ 1 <= request_count params /\
   is_zero (run_total_time w) = false /\
   exists rs, async_results w params = map inr rs).
Proof.
  split.
  - intros [r [d Hrun]]. apply run_report_inv in Hrun.
    destruct Hrun as [Hw [Hr [Hz [rs [Hrs _]]]]].
    repeat split; try assumption. exists rs. exact Hrs.
  - intros [Hw [Hr [Hz [rs Hrs]]]].
    rewrite (run_completes w params rs Hw Hr Hrs Hz). eauto.
Qed.

(** X7: a run with accepted parameters, however it ends, has read the
    driver's clock twice, has made a pool of [min(workers, request_count)]
    processes and has called the executor [request_count] times. *)
Theorem accepted_run_state (w : world F) (params : config) :
  1 <= workers params -> 1 <= request_count params ->
  snd (run w params)
  = mkDriver 2 (Some (Z.min (workers params) (request_count params)))
      (Z.to_nat (request_count params)).
Proof.
  intros Hw Hr. rewrite (run_valid w params Hw Hr). cbv zeta.
  assert (Hmin : (if request_count params <? workers params
                  then request_count params else workers params)
                 = Z.min (workers params) (request_count params)).
  { destruct (request_count params <? workers params) eqn:E.
    - apply Z.ltb_lt in E. lia.
    - apply Z.ltb_ge in E. lia. }
  rewrite Hmin.
  destruct (main_loop (async_results w params) (mkTotals 0 0 0) _)
    as [[s|acc] d] eqn:Hloop.
  - apply main_loop_stops in Hloop. destruct Hloop as [e [_ [_ ->]]].
    reflexivity.
  - apply main_loop_returns in Hloop. destruct Hloop as [rs [_ [_ ->]]].
    destruct (is_zero (run_total_time w)); reflexivity.
Qed.

(** X8: in every report [failed_requests] lies between 0 and
    [request_count], and the two byte totals are not negative. *)
Theorem report_bounds (w : world F) (params : config) (r : report F)
    (d : driver) :
  run w params = (ExitJson r, d) ->
  0 <= failed_requests r <= request_count params /\
  0 <= total_bytes_transferred r /\
  0 <= total_content_bytes_transferred r.
Proof.
  intros Hrun. apply run_report_inv in Hrun.
  destruct Hrun as [_ [Hr [_ [rs [Hrs ->]]]]].
  pose proof (async_results_length w params rs Hrs) as Hlen.
  pose proof (count_failed_le rs) as Hle.
  pose proof (collected_nonneg w params rs Hrs) as Hnn.
  pose proof (Zsum_lengths rs (collected_lengths w params rs Hrs)) as Heq.
  simpl.
  rewrite fold_total_errors, fold_total_bytes, fold_total_content_bytes.
  simpl. rewrite Hlen in Hle. lia.
Qed.

(** X9: in a report, [failed_requests] equals [request_count] exactly when
    every collected result has a status outside [200, 400). *)
Theorem all_failed_iff (w : world F) (params : config) (r : report F)
    (d : driver) :
  run w params = (ExitJson r, d) ->
  exists rs,
    async_results w params = map inr rs /\
    (failed_requests r = request_count params <->
     Forall (fun x => outside_200_400 (status x) = true) rs).
Proof.
  intros Hrun. apply run_report_inv in Hrun.
  destruct Hrun as [_ [Hr [_ [rs [Hrs ->]]]]].
  pose proof (async_results_length w params rs Hrs) as Hlen.
  exists rs. split; [assumption|]. simpl. rewrite fold_total_errors. simpl.
  rewrite <- count_failed_all. rewrite Hlen. rewrite Z2Nat.id by lia.
  reflexivity.
Qed.

Lemma task_result_same_counts (w w' : world F) (params : config) (k : nat) :
  (forall u h, w_open_url (worker w k) u h = w_open_url (worker w' k) u h) ->
  same_counts (task_result w params k) (task_result w' params k).
Proof.
  intros Hnet. unfold task_result, run_test, Worker.bind, Worker.time_time,
    Worker.open_url, Worker.res_info, Worker.res_read, Worker.emit,
    Worker.bind, Worker.raise, Worker.ret.
  simpl. rewrite Hnet.
  destruct (w_open_url (worker w' k) _ _) as [e|res]; simpl; [reflexivity|].
  destruct (read res) as [e|body]; simpl; [reflexivity|].
  repeat split.
Qed.

(** X10: the time the executor measures for each request never reaches
    the outcome of a run: two worlds with the same driver clock and the
    same answers from the network, whatever the workers' clocks read, give
    the same end, the same report and the same driver state. *)
Theorem run_ignores_request_times (w w' : world F) (params : config) :
  (forall k, main_clock w k = main_clock w' k) ->
  (forall k u h,
     w_open_url (worker w k) u h = w_open_url (worker w' k) u h) ->
  run w params = run w' params.
Proof.
  intros Hclock Hnet.
  destruct (Z_lt_le_dec (workers params) 1) as [Hw|Hw].
  { rewrite !(run_refused_workers _ params Hw). reflexivity. }
  destruct (Z_lt_le_dec (request_count params) 1) as [Hr|Hr].
  { rewrite !(run_refused_count _ params Hw Hr). reflexivity. }
  rewrite !(run_valid _ params Hw Hr). cbv zeta.
  assert (Hloop : forall acc d,
            main_loop (async_results w params) acc d
            = main_loop (async_results w' params) acc d).
  { apply main_loop_same_counts. unfold async_results.
    apply Forall2_map_same. intros k.
    apply task_result_same_counts. apply Hnet. }
  rewrite Hloop.
  assert (Htime : run_total_time w = run_total_time w').
  { unfold run_total_time. rewrite !Hclock. reflexivity. }
  unfold report_of. rewrite Htime. reflexivity.
Qed.

End RunOutcomes.

(** * Properties of the ab wrapper *)

Module AbFacts.
Import Ab AbMain.

(** ** Strings and dictionaries *)

Lemma last_char_snoc (s : string) (c : ascii) :
  last_char (s ++ String c EmptyString) = Some c.
Proof.
  induction s as [|a s IH]; simpl; [reflexivity|].
  rewrite IH. destruct s; reflexivity.
Qed.

Lemma drop_last_snoc (s : string) (c : ascii) :
  drop_last (s ++ String c EmptyString) = s.
Proof.
  induction s as [|a s IH]; simpl; [reflexivity|].
  rewrite IH. destruct s; reflexivity.
Qed.

(** X11: the colon test of a label raises [IndexError] on the empty label,
    removes one colon from the end of a label that ends in one, and leaves
    every other label as it is. *)
Theorem strip_colon_cases :
  strip_colon "" = inl IndexError /\
  (forall s, strip_colon (s ++ ":") = inr s) /\
  (forall s c, c <> ":"%char ->
     strip_colon (s ++ String c EmptyString)
     = inr (s ++ String c EmptyString)%string).
Proof.
  split; [reflexivity|]. split.
  - intros s. unfold strip_colon. rewrite last_char_snoc. simpl.
    rewrite drop_last_snoc. reflexivity.
  - intros s c Hc. unfold strip_colon. rewrite last_char_snoc.
    apply Ascii.eqb_neq in Hc. rewrite Hc. reflexivity.
Qed.

Lemma dict_get_set_same {V : Type} (k : string) (v : V) (d : dict V) :
  dict_get k (dict_set k v d) = Some v.
Proof.
  induction d as [|[k' v'] d IH]; simpl.
  - rewrite String.eqb_refl. reflexivity.
  - destruct (String.eqb k k') eqn:E; simpl.
    + rewrite String.eqb_refl. reflexivity.
    + rewrite E. exact IH.
Qed.

Lemma dict_get_set_other {V : Type} (k k' : string) (v : V) (d : dict V) :
  k <> k' -> dict_get k (dict_set k' v d) = dict_get k d.
Proof.
  intros Hk. induction d as [|[k'' v''] d IH]; simpl.
  - apply String.eqb_neq in Hk. rewrite Hk. reflexivity.
  - destruct (String.eqb k' k'') eqn:E; simpl.
    + apply String.eqb_eq in E. subst k''.
      apply String.eqb_neq in Hk. rewrite Hk. reflexivity.
    + destruct (String.eqb k k''); [reflexivity|exact IH].
Qed.

Lemma dict_set_keeps {V : Type} (k k' : string) (v : V) (d : dict V) :
  dict_get k d <> None -> dict_get k (dict_set k' v d) <> None.
Proof.
  intros Hk. destruct (String.eqb_spec k k') as [->|Hne].
  - rewrite dict_get_set_same. discriminate.
  - rewrite dict_get_set_other by assumption. exact Hk.
Qed.

(** ** The command line *)

Lemma to_int_not_nil (n : Z) :
  Z.to_int n <> Decimal.Pos Decimal.Nil /\
  Z.to_int n <> Decimal.Neg Decimal.Nil.
Proof.
  pose proof (DecimalZ.to_of (Z.to_int n)) as Hnorm.
  rewrite DecimalZ.of_to in Hnorm.
  split; intros Hnil; rewrite Hnil in Hnorm; discriminate.
Qed.

Lemma str_inj (a b : Z) : str a = str b -> a = b.
Proof.
  unfold str. intros Heq.
  destruct (to_int_not_nil a) as [Ha1 Ha2].
  destruct (to_int_not_nil b) as [Hb1 Hb2].
  apply (f_equal NilZero.int_of_string) in Heq.
  rewrite !NilZero.isi in Heq by assumption.
  inversion Heq. apply DecimalZ.to_int_inj. assumption.
Qed.


(** X13: the command line determines the binary and every parameter: two
    runs with the same command line have the same URI, request count,
    number of workers and flags. *)
Theorem build_args_inj (p p' : string) (a a' : config) :
  build_args p a = build_args p' a' -> p = p' /\ a = a'.
Proof.
  destruct a as [u n wk ka vl], a' as [u' n' wk' ka' vl'].
  unfold build_args. simpl.
  destruct ka, vl, ka', vl'; simpl; intros Heq; inversion Heq; subst;
    try discriminate;
    repeat match goal with
           | Hs : str _ = str _ |- _ => apply str_inj in Hs; subst
           end;
    split; reflexivity.
Qed.

End AbFacts.

Module AbRows.
Import Ab AbMain AbFacts.

Section Rows.
Variable lower : string -> string.
Variable int : string -> option Z.

(** ** Rows that are passed over *)

(** X14: a row with no [th], a row with several [th], and a row whose
    only [th] spans four columns leave the result as it is, so a table
    made of such rows gives back the result it started from. *)
Theorem skipped_rows_keep_result (rows : list tr) (result : dict value) :
  Forall (fun row =>
            find_all_th row = [] \/
            (1 < List.length (find_all_th row))%nat \/
            exists th cs,
              find_all_th row = [th] /\
              dict_get "colspan"%string (attrs th) = Some cs /\
              int cs = Some 4) rows ->
  for_all_tr lower int rows result = inr result.
Proof.
  induction 1 as [|row rows Hrow _ IH]; simpl; [reflexivity|].
  assert (Hskip : for_tr lower int result row = inr result).
  { unfold for_tr.
    destruct Hrow as [Hnil|[Hmany|[th [cs [Hone [Hcs Hint]]]]]].
    - rewrite Hnil. reflexivity.
    - apply Nat.ltb_lt in Hmany. rewrite Hmany. reflexivity.
    - rewrite Hone. simpl. rewrite Hcs, Hint. reflexivity. }
  rewrite Hskip. simpl. exact IH.
Qed.

(** ** Summary rows *)

(** X15: a row whose only [th] has a [colspan] other than 4 stores the
    text of its first [td] under the label of the [th], lowered and
    without its final colon, and changes no other key. *)
Theorem summary_row_sets_label (result : dict value) (row : tr)
    (th td : tag) (cs text label v : string) (n : Z) :
  find_all_th row = [th] ->
  dict_get "colspan"%string (attrs th) = Some cs ->
  int cs = Some n -> n <> 4 ->
  join_contents (contents th) = inr text ->
  strip_colon (lower text) = inr label ->
  hd_error (find_all_td row) = Some td ->
  join_contents (contents td) = inr v ->
  exists result',
    for_tr lower int result row = inr result' /\
    dict_get label result' = Some (Str v) /\
    forall k, k <> label -> dict_get k result' = dict_get k result.
Proof.
  intros Hth Hcs Hint Hn Htext Hlabel Htd Hv.
  exists (dict_set label (Str v) result). split.
  - unfold for_tr. rewrite Hth. simpl. rewrite Hcs, Hint. simpl.
    apply Z.eqb_neq in Hn. rewrite Hn, Htext. simpl.
    rewrite Hlabel. simpl. rewrite Htd. simpl. rewrite Hv. reflexivity.
  - split; [apply dict_get_set_same|].
    intros k Hk. apply dict_get_set_other. exact Hk.
Qed.

(** X16: a summary row whose [th] is empty raises [IndexError], and one
    with a label but without a [td] raises [AttributeError]; neither
    stores anything. *)
Theorem summary_row_errors (result : dict value) (row : tr) (th : tag)
    (cs : string) (n : Z) :
  lower "" = ""%string ->
  find_all_th row = [th] ->
  dict_get "colspan"%string (attrs th) = Some cs ->
  int cs = Some n -> n <> 4 ->
  (contents th = [] -> for_tr lower int result row = inl IndexError) /\
  (forall text label,
     join_contents (contents th) = inr text ->
     strip_colon (lower text) = inr label ->
     find_all_td row = [] ->
     for_tr lower int result row = inl (AttributeError "contents")).
Proof.
  intros Hlow Hth Hcs Hint Hn. apply Z.eqb_neq in Hn. split.
  - intros Hempty. unfold for_tr. rewrite Hth. simpl.
    rewrite Hcs, Hint. simpl. rewrite Hn. unfold join_contents.
    rewrite Hempty. simpl. rewrite Hlow. reflexivity.
  - intros text label Htext Hlabel Htd. unfold for_tr. rewrite Hth. simpl.
    rewrite Hcs, Hint. simpl. rewrite Hn, Htext. simpl.
    rewrite Hlabel. simpl. rewrite Htd. reflexivity.
Qed.

(** ** Rows of the timing table *)

Lemma for_td_bound (th_label : string) (items : list tag) :
  forall (idx : nat) (result r : dict value),
  (idx <= 3)%nat ->
  for_td lower int th_label idx items result = inr r ->
  (idx + List.length items <= 3)%nat.
Proof.
  induction items as [|item rest IH]; intros idx result r Hidx Hr.
  - simpl. lia.
  - simpl in Hr. unfold bind in Hr.
    destruct (nth_error td_labels idx) as [td_label|] eqn:Hnth;
      simpl in Hr; [|discriminate].
    assert (Hlt : (idx < 3)%nat).
    { change 3%nat with (List.length td_labels). apply nth_error_Some.
      rewrite Hnth. discriminate. }
    destruct (strip_colon _) as [e|label]; [discriminate|].
    destruct (join_contents _) as [e|text]; [discriminate|].
    destruct (int text) as [n|]; simpl in Hr; [|discriminate].
    destruct (dict_get _ result) as [[s|d]|]; try discriminate.
    apply IH in Hr; [|lia]. simpl. lia.
Qed.

(** X17: a row of the timing table (one [th] without [colspan]) that is
    read without an exception has at most three [td] cells: there is no
    label for a fourth. *)
Theorem timing_row_at_most_three (result r : dict value) (row : tr)
    (th : tag) :
  find_all_th row = [th] ->
  dict_get "colspan"%string (attrs th) = None ->
  for_tr lower int result row = inr r ->
  (List.length (find_all_td row) <= 3)%nat.
Proof.
  intros Hth Hcs Hr. unfold for_tr in Hr. rewrite Hth in Hr. simpl in Hr.
  rewrite Hcs in Hr. unfold bind in Hr.
  destruct (join_contents (contents th)) as [e|th_label]; [discriminate|].
  apply for_td_bound in Hr; lia.
Qed.

Lemma for_td_other_keys (th_label : string) (items : list tag) :
  forall (idx : nat) (result r : dict value),
  for_td lower int th_label idx items result = inr r ->
  forall k, k <> "connection times"%string ->
  dict_get k r = dict_get k result.
Proof.
  induction items as [|item rest IH]; intros idx result r Hr k Hk.
  - simpl in Hr. inversion Hr. reflexivity.
  - simpl in Hr. unfold bind in Hr.
    destruct (nth_error td_labels idx) as [td_label|];
      simpl in Hr; [|discriminate].
    destruct (strip_colon _) as [e|label]; [discriminate|].
    destruct (join_contents _) as [e|text]; [discriminate|].
    destruct (int text) as [n|]; simpl in Hr; [|discriminate].
    destruct (dict_get _ result) as [[s|d]|]; try discriminate.
    rewrite (IH _ _ _ Hr k Hk). apply dict_get_set_other. exact Hk.
Qed.

Lemma for_td_keeps_keys (th_label : string) (items : list tag) :
  forall (idx : nat) (result r : dict value),
  for_td lower int th_label idx items result = inr r ->
  forall k, dict_get k result <> None -> dict_get k r <> None.
Proof.
  induction items as [|item rest IH]; intros idx result r Hr k Hk.
  - simpl in Hr. inversion Hr. subst. exact Hk.
  - simpl in Hr. unfold bind in Hr.
    destruct (nth_error td_labels idx) as [td_label|];
      simpl in Hr; [|discriminate].
    destruct (strip_colon _) as [e|label]; [discriminate|].
    destruct (join_contents _) as [e|text]; [discriminate|].
    destruct (int text) as [n|]; simpl in Hr; [|discriminate].
    destruct (dict_get _ result) as [[s|d]|]; try discriminate.
    apply (IH _ _ _ Hr k). apply dict_set_keeps. exact Hk.
Qed.

Lemma for_tr_keeps_keys (result r : dict value) (row : tr) :
  for_tr lower int result row = inr r ->
  forall k, dict_get k result <> None -> dict_get k r <> None.
Proof.
  unfold for_tr. intros Hr k Hk.
  destruct (1 <? List.length (find_all_th row))%nat.
  { inversion Hr. subst. exact Hk. }
  destruct (hd_error (find_all_th row)) as [th|].
  2:{ inversion Hr. subst. exact Hk. }
  destruct (dict_get "colspan"%string (attrs th)) as [cs|].
  - unfold bind in Hr.
    destruct (int cs) as [n|]; simpl in Hr; [|discriminate].
    destruct (n =? 4). { inversion Hr. subst. exact Hk. }
    destruct (join_contents (contents th)) as [e|text]; [discriminate|].
    destruct (strip_colon (lower text)) as [e|label]; [discriminate|].
    destruct (hd_error (find_all_td row)) as [td|];
      simpl in Hr; [|discriminate].
    destruct (join_contents (contents td)) as [e|v]; [discriminate|].
    inversion Hr. subst. apply dict_set_keeps. exact Hk.
  - unfold bind in Hr.
    destruct (join_contents (contents th)) as [e|th_label]; [discriminate|].
    apply (for_td_keeps_keys _ _ _ _ _ Hr k Hk).
Qed.

Lemma for_all_tr_keeps_keys (rows : list tr) :
  forall (result r : dict value),
  for_all_tr lower int rows result = inr r ->
  forall k, dict_get k result <> None -> dict_get k r <> None.
Proof.
  induction rows as [|row rows IH]; intros result r Hr k Hk.
  - simpl in Hr. inversion Hr. subst. exact Hk.
  - simpl in Hr. unfold bind in Hr.
    destruct (for_tr lower int result row) as [e|result'] eqn:Hrow;
      [discriminate|].
    apply (IH _ _ Hr k). apply (for_tr_keeps_keys _ _ _ Hrow k Hk).
Qed.

Local Ltac step H :=
  rewrite H; cbn [for_td nth_error td_labels or_raise bind].

(** X18: a row of the timing table with three integer cells puts them in
    the dict of connection times under the labels made of [Min.], [Avg.]
    and [Max] and the text of the [th], and changes no other key of the
    result. *)
Theorem timing_row_three_cells (result : dict value) (row : tr)
    (th c0 c1 c2 : tag) (t s0 s1 s2 l0 l1 l2 : string) (n0 n1 n2 : Z)
    (d : dict Z) :
  find_all_th row = [th] ->
  dict_get "colspan"%string (attrs th) = None ->
  join_contents (contents th) = inr t ->
  find_all_td row = [c0; c1; c2] ->
  join_contents (contents c0) = inr s0 -> int s0 = Some n0 ->
  join_contents (contents c1) = inr s1 -> int s1 = Some n1 ->
  join_contents (contents c2) = inr s2 -> int s2 = Some n2 ->
  strip_colon (lower ("Min." ++ " " ++ t)) = inr l0 ->
  strip_colon (lower ("Avg." ++ " " ++ t)) = inr l1 ->
  strip_colon (lower ("Max" ++ " " ++ t)) = inr l2 ->
  l0 <> l1 -> l0 <> l2 -> l1 <> l2 ->
  dict_get "connection times"%string result = Some (Times d) ->
  exists r d',
    for_tr lower int result row = inr r /\
    dict_get "connection times"%string r = Some (Times d') /\
    dict_get l0 d' = Some n0 /\
    dict_get l1 d' = Some n1 /\
    dict_get l2 d' = Some n2 /\
    forall k, k <> "connection times"%string ->
      dict_get k r = dict_get k result.
Proof.
  intros Hth Hcs Ht Htd Hs0 Hn0 Hs1 Hn1 Hs2 Hn2 Hl0 Hl1 Hl2 H01 H02 H12 Hd.
  assert (H10 : l1 <> l0) by congruence.
  assert (H20 : l2 <> l0) by congruence.
  assert (H21 : l2 <> l1) by congruence.
  assert (Hrow : for_tr lower int result row
                 = for_td lower int t 0 [c0; c1; c2] result).
  { unfold for_tr. rewrite Hth. simpl. rewrite Hcs, Ht, Htd. reflexivity. }
  rewrite Hrow.
  cbn [for_td nth_error td_labels or_raise bind].
  step Hl0. step Hs0. step Hn0. step Hd.
  step Hl1. step Hs1. step Hn1. step (dict_get_set_same (V:=value)).
  step Hl2. step Hs2. step Hn2. step (dict_get_set_same (V:=value)).
  eexists. exists (dict_set l2 n2 (dict_set l1 n1 (dict_set l0 n0 d))).
  split; [reflexivity|].
  split; [apply dict_get_set_same|].
  split.
  { rewrite !dict_get_set_other by assumption. apply dict_get_set_same. }
  split.
  { rewrite dict_get_set_other by assumption. apply dict_get_set_same. }
  split; [apply dict_get_set_same|].
  intros k Hk. rewrite !dict_get_set_other by assumption. reflexivity.
Qed.

(** ** Whole runs *)

(** X19: [main] checks none of the parameters and runs at most one
    command: none when the binary is not found, and otherwise the command
    line of the parameters as they are, also for a request count or a
    number of workers below 1. *)
Theorem main_commands (w : world) (params : config) :
  snd (main lower int w params)
  = match get_bin_path w with
    | None => []
    | Some ab_path => [build_args ab_path params]
    end.
Proof.
  unfold main. destruct (get_bin_path w) as [ab_path|]; [|reflexivity].
  destruct (run_command w (build_args ab_path params)) as [[rc out] err].
  destruct (negb (rc =? 0)); [reflexivity|].
  destruct (HAS_BEAUTIFUL_SOUP w); [|reflexivity].
  destruct (for_all_tr lower int (find_all_tr w out) _); reflexivity.
Qed.

Lemma main_exit_inv (w : world) (params : config) (result : dict value) :
  fst (main lower int w params) = ExitJson result ->
  exists ab_path out err,
    get_bin_path w = Some ab_path /\
    run_command w (build_args ab_path params) = (0, out, err) /\
    HAS_BEAUTIFUL_SOUP w = true /\
    for_all_tr lower int (find_all_tr w out)
      [("connection times"%string, Times [])] = inr result.
Proof.
  unfold main.
  destruct (get_bin_path w) as [ab_path|] eqn:Hbin; [|discriminate].
  destruct (run_command w (build_args ab_path params)) as [[rc out] err]
    eqn:Hcmd.
  destruct (rc =? 0) eqn:Erc; simpl; [|discriminate].
  apply Z.eqb_eq in Erc. subst rc.
  destruct (HAS_BEAUTIFUL_SOUP w); [|discriminate].
  destruct (for_all_tr lower int (find_all_tr w out) _) as [e|r] eqn:Hrows;
    simpl; [discriminate|].
  intros Heq. inversion Heq. subst. exists ab_path, out, err.
  repeat split; assumption.
Qed.

(** X20: [main] hands a result to [exit_json] exactly when the binary was
    found, the command returned 0, [bs4] could be imported and every row
    was read without an exception; the result is what the rows built from
    the empty dict of connection times. *)
Theorem exit_json_iff (w : world) (params : config) (result : dict value) :
  fst (main lower int w params) = ExitJson result <->
  exists ab_path out err,
    get_bin_path w = Some ab_path /\
    run_command w (build_args ab_path params) = (0, out, err) /\
    HAS_BEAUTIFUL_SOUP w = true /\
    for_all_tr lower int (find_all_tr w out)
      [("connection times"%string, Times [])] = inr result.
Proof.
  split; [apply main_exit_inv|].
  intros [ab_path [out [err [Hbin [Hcmd [Hbs Hrows]]]]]].
  unfold main. rewrite Hbin, Hcmd. simpl. rewrite Hbs, Hrows. reflexivity.
Qed.

(** X21: when the command returned 0 but [bs4] could not be imported, the
    run ends with [NameError] after the command has run: the flag
    [HAS_BEAUTIFUL_SOUP] is never looked at, and what the command printed
    is lost. *)
Theorem missing_parser_raises (w : world) (params : config)
    (ab_path out err : string) :
  get_bin_path w = Some ab_path ->
  run_command w (build_args ab_path params) = (0, out, err) ->
  HAS_BEAUTIFUL_SOUP w = false ->
  main lower int w params
  = (Raise (NameError "BeautifulSoup"), [build_args ab_path params]).
Proof.
  intros Hbin Hcmd Hbs. unfold main. rewrite Hbin, Hcmd. simpl.
  rewrite Hbs. reflexivity.
Qed.

(** X22: when the command returns a code other than 0, the run ends in
    [fail_json] with the code and what the command printed, and no row is
    read, whether or not [bs4] could be imported. *)
Theorem failed_command_reported (w : world) (params : config)
    (ab_path out err : string) (rc : Z) :
  get_bin_path w = Some ab_path ->
  run_command w (build_args ab_path params) = (rc, out, err) ->
  rc <> 0 ->
  fst (main lower int w params) = FailJson rc out err.
Proof.
  intros Hbin Hcmd Hrc. unfold main. rewrite Hbin, Hcmd.
  apply Z.eqb_neq in Hrc. rewrite Hrc. reflexivity.
Qed.

(** X23: reading the rows never removes a key, so every result handed to
    [exit_json] has the key [connection times]. *)
Theorem exit_json_has_connection_times (w : world) (params : config)
    (result : dict value) :
  fst (main lower int w params) = ExitJson result ->
  dict_get "connection times"%string result <> None.
Proof.
  intros Hrun. apply main_exit_inv in Hrun.
  destruct Hrun as [ab_path [out [err [_ [_ [_ Hrows]]]]]].
  apply (for_all_tr_keeps_keys _ _ _ Hrows). simpl. discriminate.
Qed.

End Rows.

End AbRows.

(** * Concrete runs of the further properties *)

Lemma open_url_error_propagates_witness :
  w_open_url (worker_of 1 3 (inl SocketTimeout)) "u" (headers_of true)
  = inl SocketTimeout /\
  run_test (worker_of 1 3 (inl SocketTimeout)) "u" true false proc0
  = (inl (Transport SocketTimeout),
     mkProc 1 [EvTime (1 # 1); EvOpenUrl "u" (headers_of true)]).
Proof.
  assert (Hnet : w_open_url (worker_of 1 3 (inl SocketTimeout)) "u"
                   (headers_of true) = inl SocketTimeout) by reflexivity.
  split; [exact Hnet|].
  exact (open_url_error_propagates _ "u" true false _ Hnet).
Defined.

Lemma body_read_error_drops_response_witness :
  w_open_url
    (worker_of 1 3 (inr {| code := 200; read := inl SocketTimeout |}))
    "u" (headers_of false)
  = inr {| code := 200; read := inl SocketTimeout |} /\
  read {| code := 200; read := inl SocketTimeout |} = inl SocketTimeout /\
  fst (run_test
         (worker_of 1 3 (inr {| code := 200; read := inl SocketTimeout |}))
         "u" false false proc0)
  = inl (Transport SocketTimeout).
Proof.
  assert (Hnet : w_open_url
                   (worker_of 1 3
                      (inr {| code := 200; read := inl SocketTimeout |}))
                   "u" (headers_of false)
                 = inr {| code := 200; read := inl SocketTimeout |})
    by reflexivity.
  assert (Hread : read {| code := 200; read := inl SocketTimeout |}
                  = inl SocketTimeout) by reflexivity.
  split; [exact Hnet|]. split; [exact Hread|].
  rewrite (body_read_error_drops_response _ "u" false false _ _ Hnet Hread).
  reflexivity.
Defined.

Lemma accepted_run_state_witness :
  1 <= workers (params_of 4 2 false) /\
  1 <= request_count (params_of 4 2 false) /\
  snd (run flaky (params_of 4 2 false)) = mkDriver 2 (Some 2) 4.
Proof.
  assert (Hw : 1 <= workers (params_of 4 2 false)) by (simpl; lia).
  assert (Hr : 1 <= request_count (params_of 4 2 false)) by (simpl; lia).
  split; [exact Hw|]. split; [exact Hr|].
  exact (accepted_run_state flaky (params_of 4 2 false) Hw Hr).
Defined.

Lemma report_bounds_witness :
  run mixed (params_of 5 2 false)
  = (ExitJson (mkReport (123 # 1000) 113 113 (813 # 20) (9 # 10) 3),
     mkDriver 2 (Some 2) 5) /\
  0 <= 3 <= request_count (params_of 5 2 false).
Proof.
  assert (Hrun : run mixed (params_of 5 2 false)
                 = (ExitJson (mkReport (123 # 1000) 113 113 (813 # 20)
                                (9 # 10) 3),
                    mkDriver 2 (Some 2) 5))
    by (vm_compute; reflexivity).
  split; [exact Hrun|].
  destruct (report_bounds mixed (params_of 5 2 false) _ _ Hrun)
    as [Hfailed _].
  exact Hfailed.
Defined.

Lemma all_failed_iff_witness :
  run (world_of 100 102 [answered 500 10]) (params_of 2 2 false)
  = (ExitJson (mkReport (2 # 1) 20 20 (1 # 1) (1 # 100) 2),
     mkDriver 2 (Some 2) 2) /\
  exists rs,
    async_results (world_of 100 102 [answered 500 10]) (params_of 2 2 false)
    = map inr rs /\
    (2 = request_count (params_of 2 2 false) <->
     Forall (fun x => outside_200_400 (status x) = true) rs).
Proof.
  assert (Hrun : run (world_of 100 102 [answered 500 10])
                   (params_of 2 2 false)
                 = (ExitJson (mkReport (2 # 1) 20 20 (1 # 1) (1 # 100) 2),
                    mkDriver 2 (Some 2) 2))
    by (vm_compute; reflexivity).
  split; [exact Hrun|].
  exact (all_failed_iff _ (params_of 2 2 false) _ _ Hrun).
Defined.

Lemma run_ignores_request_times_witness :
  (forall k,
     main_clock steady k
     = main_clock
         {| main_clock := main_clock steady;
            worker := fun _ => worker_of 0 60 (answered 200 100) |} k) /\
  (forall k u h,
     w_open_url (worker steady k) u h
     = w_open_url
         (worker
            {| main_clock := main_clock steady;
               worker := fun _ => worker_of 0 60 (answered 200 100) |} k)
         u h) /\
  run steady (params_of 4 2 false)
  = run {| main_clock := main_clock steady;
           worker := fun _ => worker_of 0 60 (answered 200 100) |}
      (params_of 4 2 false).
Proof.
  assert (Hclock : forall k,
            main_clock steady k
            = main_clock
                {| main_clock := main_clock steady;
                   worker := fun _ => worker_of 0 60 (answered 200 100) |} k)
    by (intros k; reflexivity).
  assert (Hnet : forall k u h,
            w_open_url (worker steady k) u h
            = w_open_url
                (worker
                   {| main_clock := main_clock steady;
                      worker := fun _ => worker_of 0 60 (answered 200 100) |}
                   k) u h).
  { intros k u h. simpl. destruct k as [|k]; [reflexivity|].
    destruct k; reflexivity. }
  split; [exact Hclock|]. split; [exact Hnet|].
  exact (run_ignores_request_times steady _ (params_of 4 2 false)
           Hclock Hnet).
Defined.

Lemma run_test_returns_iff_witness :
  (exists res body,
     w_open_url (worker_of 1 3 (answered 200 10)) "u" (headers_of true)
     = inr res /\ read res = inr body) /\
  exists x p',
    run_test (worker_of 1 3 (answered 200 10)) "u" true false proc0
    = (inr x, p').
Proof.
  assert (Hnet : exists res body,
            w_open_url (worker_of 1 3 (answered 200 10)) "u"
              (headers_of true) = inr res /\ read res = inr body).
  { exists {| code := 200; read := inr (body_of 10) |}, (body_of 10).
    split; reflexivity. }
  split; [exact Hnet|].
  exact (proj2 (run_test_returns_iff _ "u" true false) Hnet).
Defined.

Lemma report_iff_witness :
  (1 <= workers (params_of 4 50 false) /\
   1 <= request_count (params_of 4 50 false) /\
   is_zero (run_total_time steady) = false /\
   exists rs, async_results steady (params_of 4 50 false) = map inr rs) /\
  exists r d, run steady (params_of 4 50 false) = (ExitJson r, d).
Proof.
  assert (Hok : 1 <= workers (params_of 4 50 false) /\
                1 <= request_count (params_of 4 50 false) /\
                is_zero (run_total_time steady) = false /\
                exists rs,
                  async_results steady (params_of 4 50 false) = map inr rs).
  { split; [simpl; lia|]. split; [simpl; lia|]. split; [reflexivity|].
    exists (repeat (mkURIResult 200 (2 # 1) 100 100) 4). reflexivity. }
  split; [exact Hok|].
  exact (proj2 (report_iff steady (params_of 4 50 false)) Hok).
Defined.

Module AbRuns.
Import Ab AbMain AbFacts AbRows.

Lemma exit_json_iff_witness :
  fst (main ascii_lower decimal_int (sample_world 0 true)
         (params_of 1000 5 true))
  = ExitJson
      [("connection times"%string,
        Times [("min. connect", 0); ("avg. connect", 1);
               ("max connect", 12)]%string);
       ("server software"%string, Str "nginx");
       ("complete requests"%string, Str "1000")] /\
  exists ab_path out err,
    get_bin_path (sample_world 0 true) = Some ab_path /\
    run_command (sample_world 0 true)
      (build_args ab_path (params_of 1000 5 true)) = (0, out, err) /\
    HAS_BEAUTIFUL_SOUP (sample_world 0 true) = true.
Proof.
  assert (Hrun : fst (main ascii_lower decimal_int (sample_world 0 true)
                        (params_of 1000 5 true))
                 = ExitJson
                     [("connection times"%string,
                       Times [("min. connect", 0); ("avg. connect", 1);
                              ("max connect", 12)]%string);
                      ("server software"%string, Str "nginx");
                      ("complete requests"%string, Str "1000")])
    by reflexivity.
  split; [exact Hrun|].
  destruct (proj1 (exit_json_iff ascii_lower decimal_int _ _ _) Hrun)
    as [ab_path [out [err [Hbin [Hcmd [Hbs _]]]]]].
  exists ab_path, out, err. repeat split; assumption.
Defined.

Lemma build_args_inj_witness :
  build_args "/usr/bin/ab" (params_of 1000 5 true)
  = build_args "/usr/bin/ab" (params_of 1000 5 true) /\
  build_args "/usr/bin/ab" (params_of 1000 5 true)
  = ["/usr/bin/ab"; "-n"; "1000"; "-c"; "5"; "-w"; "-l";
     "http://example.test/ok"]%string /\
  params_of 1000 5 true = params_of 1000 5 true.
Proof.
  assert (Heq : build_args "/usr/bin/ab" (params_of 1000 5 true)
                = build_args "/usr/bin/ab" (params_of 1000 5 true))
    by reflexivity.
  split; [exact Heq|]. split; [reflexivity|].
  destruct (build_args_inj _ _ _ _ Heq) as [_ Hparams]. exact Hparams.
Defined.

Lemma skipped_rows_keep_result_witness :
  for_all_tr ascii_lower decimal_int
    [ {| find_all_th := [th_of (Some "4"%string) "Connnection Times (ms)"];
         find_all_td := [] |};
      {| find_all_th := [th_of None "min"; th_of None "avg"];
         find_all_td := [] |};
      {| find_all_th := []; find_all_td := [td_of "1"] |} ]
    [("connection times"%string, Times [])]
  = inr [("connection times"%string, Times [])].
Proof.
  apply skipped_rows_keep_result.
  constructor.
  { right. right.
    exists (th_of (Some "4"%string) "Connnection Times (ms)"), "4"%string.
    repeat split. }
  constructor.
  { right. left. simpl. lia. }
  constructor.
  { left. reflexivity. }
  constructor.
Defined.

Lemma summary_row_sets_label_witness :
  exists result',
    for_tr ascii_lower decimal_int [("connection times"%string, Times [])]
      {| find_all_th := [th_of (Some "2"%string) "Server Software:"];
         find_all_td := [td_of "nginx"] |}
    = inr result' /\
    dict_get "server software"%string result' = Some (Str "nginx").
Proof.
  destruct (summary_row_sets_label ascii_lower decimal_int
              [("connection times"%string, Times [])]
              {| find_all_th := [th_of (Some "2"%string) "Server Software:"];
                 find_all_td := [td_of "nginx"] |}
              (th_of (Some "2"%string) "Server Software:") (td_of "nginx")
              "2" "Server Software:" "server software" "nginx" 2
              eq_refl eq_refl eq_refl ltac:(lia) eq_refl eq_refl eq_refl
              eq_refl)
    as [result' [Hrow [Hget _]]].
  exists result'. split; assumption.
Defined.

Lemma summary_row_errors_witness :
  for_tr ascii_lower decimal_int [("connection times"%string, Times [])]
    {| find_all_th := [{| attrs := [("colspan", "2")]%string;
                          contents := [] |}];
       find_all_td := [td_of "nginx"] |}
  = inl IndexError /\
  for_tr ascii_lower decimal_int [("connection times"%string, Times [])]
    {| find_all_th := [th_of (Some "2"%string) "Server Software:"];
       find_all_td := [] |}
  = inl (AttributeError "contents").
Proof.
  split.
  - destruct (summary_row_errors ascii_lower decimal_int
                [("connection times"%string, Times [])]
                {| find_all_th := [{| attrs := [("colspan", "2")]%string;
                                      contents := [] |}];
                   find_all_td := [td_of "nginx"] |}
                _ "2" 2 eq_refl eq_refl eq_refl eq_refl ltac:(lia))
      as [Hempty _].
    apply Hempty. reflexivity.
  - destruct (summary_row_errors ascii_lower decimal_int
                [("connection times"%string, Times [])]
                {| find_all_th := [th_of (Some "2"%string) "Server Software:"];
                   find_all_td := [] |}
                _ "2" 2 eq_refl eq_refl eq_refl eq_refl ltac:(lia))
      as [_ Hnotd].
    apply (Hnotd "Server Software:"%string "server software"%string);
      reflexivity.
Defined.

Lemma timing_row_at_most_three_witness :
  for_tr ascii_lower decimal_int [("connection times"%string, Times [])]
    {| find_all_th := [th_of None "Connect:"];
       find_all_td := [td_of "0"; td_of "1"; td_of "12"] |}
  = inr [("connection times"%string,
          Times [("min. connect", 0); ("avg. connect", 1);
                 ("max connect", 12)]%string)] /\
  (List.length
     (find_all_td
        {| find_all_th := [th_of None "Connect:"];
           find_all_td := [td_of "0"; td_of "1"; td_of "12"] |}) <= 3)%nat.
Proof.
  assert (Hrow : for_tr ascii_lower decimal_int
                   [("connection times"%string, Times [])]
                   {| find_all_th := [th_of None "Connect:"];
                      find_all_td := [td_of "0"; td_of "1"; td_of "12"] |}
                 = inr [("connection times"%string,
                         Times [("min. connect", 0); ("avg. connect", 1);
                                ("max connect", 12)]%string)])
    by reflexivity.
  split; [exact Hrow|].
  refine (timing_row_at_most_three ascii_lower decimal_int _ _ _
            (th_of None "Connect:") _ _ Hrow); reflexivity.
Defined.

Lemma timing_row_three_cells_witness :
  exists r d',
    for_tr ascii_lower decimal_int
      [("connection times"%string, Times []);
       ("server software"%string, Str "nginx")]
      {| find_all_th := [th_of None "Connect:"];
         find_all_td := [td_of "0"; td_of "1"; td_of "12"] |}
    = inr r /\
    dict_get "connection times"%string r = Some (Times d') /\
    dict_get "min. connect"%string d' = Some 0 /\
    dict_get "avg. connect"%string d' = Some 1 /\
    dict_get "max connect"%string d' = Some 12.
Proof.
  destruct (timing_row_three_cells ascii_lower decimal_int
              [("connection times"%string, Times []);
               ("server software"%string, Str "nginx")]
              {| find_all_th := [th_of None "Connect:"];
                 find_all_td := [td_of "0"; td_of "1"; td_of "12"] |}
              (th_of None "Connect:") (td_of "0") (td_of "1") (td_of "12")
              "Connect:" "0" "1" "12"
              "min. connect" "avg. connect" "max connect" 0 1 12 []
              eq_refl eq_refl eq_refl eq_refl eq_refl eq_refl eq_refl
              eq_refl eq_refl eq_refl eq_refl eq_refl eq_refl
              ltac:(discriminate) ltac:(discriminate) ltac:(discriminate)
              eq_refl)
    as [r [d' [Hrow [Hct [H0 [H1 [H2 _]]]]]]].
  exists r, d'. repeat split; assumption.
Defined.

Lemma missing_parser_raises_witness :
  get_bin_path (sample_world 0 false) = Some "/usr/bin/ab"%string /\
  HAS_BEAUTIFUL_SOUP (sample_world 0 false) = false /\
  main ascii_lower decimal_int (sample_world 0 false) (params_of 10 2 false)
  = (Raise (NameError "BeautifulSoup"),
     [build_args "/usr/bin/ab" (params_of 10 2 false)]).
Proof.
  split; [reflexivity|]. split; [reflexivity|].
  exact (missing_parser_raises ascii_lower decimal_int (sample_world 0 false)
           (params_of 10 2 false) "/usr/bin/ab" "<table/>" ""
           eq_refl eq_refl eq_refl).
Defined.

Lemma failed_command_reported_witness :
  run_command (sample_world 1 true)
    (build_args "/usr/bin/ab" (params_of 10 2 false))
  = (1, "<table/>"%string, ""%string) /\
  fst (main ascii_lower decimal_int (sample_world 1 true)
         (params_of 10 2 false))
  = FailJson 1 "<table/>" "".
Proof.
  split; [reflexivity|].
  exact (failed_command_reported ascii_lower decimal_int (sample_world 1 true)
           (params_of 10 2 false) "/usr/bin/ab" "<table/>" "" 1
           eq_refl eq_refl ltac:(lia)).
Defined.

Lemma exit_json_has_connection_times_witness :
  fst (main ascii_lower decimal_int (sample_world 0 true)
         (params_of 1000 5 true))
  = ExitJson
      [("connection times"%string,
        Times [("min. connect", 0); ("avg. connect", 1);
               ("max connect", 12)]%string);
       ("server software"%string, Str "nginx");
       ("complete requests"%string, Str "1000")] /\
  dict_get "connection times"%string
    [("connection times"%string,
      Times [("min. connect", 0); ("avg. connect", 1);
             ("max connect", 12)]%string);
     ("server software"%string, Str "nginx");
     ("complete requests"%string, Str "1000")] <> None.
Proof.
  assert (Hrun : fst (main ascii_lower decimal_int (sample_world 0 true)
                        (params_of 1000 5 true))
                 = ExitJson
                     [("connection times"%string,
                       Times [("min. connect", 0); ("avg. connect", 1);
                              ("max connect", 12)]%string);
                      ("server software"%string, Str "nginx");
                      ("complete requests"%string, Str "1000")])
    by reflexivity.
  split; [exact Hrun|].
  exact (exit_json_has_connection_times ascii_lower decimal_int _ _ _ Hrun).
Defined.

End AbRuns.
